(** * Website/app.py: series formatters and decision service

    A shallow embedding of the request handlers of [Website/app.py] and
    the properties its specification states about them.

    Conventions of the embedding:
    - a Python [str] is a [string]; its characters are read as the code
      points U+0000..U+00FF, and [str.upper] is written out on the ASCII
      letters (the three action words are ASCII);
    - a Python [float] is an IEEE 754 binary64 number, a [spec_float] with
      precision 53 and maximal exponent 1024, with round-to-nearest-even
      arithmetic written with the operations of [SpecFloat];
    - a Python [dict] that is turned into a JSON object is a
      [gmap string json];
    - [try]/[except Exception] is explicit: a block is a computation in
      [result], and the handler is the [Raise] branch of a [match];
    - the world outside the process (the market-data provider, the
      text-generation API, the UTC clock) is a record of oracles. *)

From Stdlib Require Import ZArith List Sorted Ascii String DecimalString Lia.
From Stdlib Require Import Floats.SpecFloat.
From stdpp Require Import base option list strings gmap.

Import ListNotations.
Local Open Scope string_scope.

(** ** Exceptions *)

(** An instance of (a subclass of) [Exception]: its class name and
    [str(e)]. The signals outside [Exception] ([KeyboardInterrupt],
    [SystemExit]), which no [except Exception] clause handles, are not
    modelled. *)
Record exn : Type := Exception { exn_class : string; exn_str : string }.

Inductive result (A : Type) : Type :=
| Ok (a : A)
| Raise (e : exn).
Arguments Ok {A} a.
Arguments Raise {A} e.

Definition rbind {A B : Type} (m : result A) (k : A -> result B) : result B :=
  match m with
  | Ok a => k a
  | Raise e => Raise e
  end.

Declare Scope result_scope.
Delimit Scope result_scope with result.
Notation "'let!' x ':=' m 'in' k" := (rbind m (fun x => k))
  (at level 10, x pattern, m at level 100, k at level 200) : result_scope.

(** ** binary64 *)

Module F64.

Abbreviation float := spec_float.

Definition prec : Z := 53.
Definition emax : Z := 1024.

Definition add : float -> float -> float := SFadd prec emax.
Definition div : float -> float -> float := SFdiv prec emax.

(** [float(n)] for an integer [n] (rounded to nearest even when [n] needs
    more than 53 bits). *)
Definition of_Z (n : Z) : float := binary_normalize prec emax n 0 false.

(** The double nearest to [n / 10^d]: how a decimal literal with [d]
    fractional digits is read when [n] and [10^d] are below [2^53]. *)
Definition of_decimal (n : Z) (d : nat) : float :=
  div (of_Z n) (of_Z (10 ^ Z.of_nat d)).

Definition is_nan (x : float) : bool :=
  match x with S754_nan => true | _ => false end.

(** [n / d] rounded to the nearest integer, ties to even; [0 < d]. *)
Definition div_half_even (n d : Z) : Z :=
  let q := (n / d)%Z in
  let r := (n mod d)%Z in
  match (2 * r ?= d)%Z with
  | Lt => q
  | Gt => (q + 1)%Z
  | Eq => if Z.even q then q else (q + 1)%Z
  end.

(** The integer nearest to [|x| * 100] (ties to even on the exact binary
    value), for a finite non-zero [x = m * 2^e]: the decimal digits that
    the correctly rounded conversion to two places yields. *)
Definition hundredths (m : positive) (e : Z) : Z :=
  match e with
  | Zneg p => div_half_even (Zpos m * 100) (2 ^ Zpos p)
  | _ => (Zpos m * 2 ^ e * 100)%Z
  end.

(** [round(x, 2)]: NaN and the infinities round to themselves; a finite
    [x] is converted to the decimal with two fractional digits nearest to
    its exact value and that decimal is read back as a double. *)
Definition round2 (x : float) : float :=
  match x with
  | S754_finite s m e =>
      match hundredths m e with
      | Zpos k => div (S754_finite s k 0) (of_Z 100)
      | _ => S754_zero s
      end
  | _ => x
  end.

End F64.

(** ** Python strings *)

Module Str.

Definition nl : string := String (ascii_of_nat 10) "".

(** [str.isspace] on one character of the range U+0000..U+00FF. *)
Definition is_space (c : ascii) : bool :=
  let n := nat_of_ascii c in
  (((9 <=? n) && (n <=? 13)) || ((28 <=? n) && (n <=? 32))
   || (n =? 133) || (n =? 160))%nat.

Definition upper_char (c : ascii) : ascii :=
  let n := nat_of_ascii c in
  if ((97 <=? n) && (n <=? 122))%nat then ascii_of_nat (n - 32) else c.

(** [s.upper()] *)
Fixpoint upper (s : string) : string :=
  match s with
  | EmptyString => EmptyString
  | String c s' => String (upper_char c) (upper s')
  end.

Fixpoint lstrip (s : string) : string :=
  match s with
  | EmptyString => EmptyString
  | String c s' => if is_space c then lstrip s' else s
  end.

Fixpoint rstrip (s : string) : string :=
  match s with
  | EmptyString => EmptyString
  | String c s' =>
      match rstrip s' with
      | EmptyString => if is_space c then EmptyString else String c EmptyString
      | r => String c r
      end
  end.

(** [s.strip()] *)
Definition strip (s : string) : string := rstrip (lstrip s).

(** [s.split('\n')]: never the empty list. *)
Fixpoint split_lines (s : string) : list string :=
  match s with
  | EmptyString => [EmptyString]
  | String c s' =>
      if Ascii.eqb c (ascii_of_nat 10) then EmptyString :: split_lines s'
      else match split_lines s' with
           | h :: t => String c h :: t
           | [] => [String c EmptyString]
           end
  end.

(** [s[:n]] *)
Fixpoint take (n : nat) (s : string) : string :=
  match n, s with
  | S n', String c s' => String c (take n' s')
  | _, _ => EmptyString
  end.

(** [str(n)] for a natural number. *)
Definition of_N (n : N) : string := NilZero.string_of_uint (N.to_uint n).
Definition of_nat (n : nat) : string := of_N (N.of_nat n).

(** Zero padding on the left up to [width] characters, as the
    [%02d]-like fields of [strftime] and of the [.2f] format do. *)
Definition zfill (width : nat) (s : string) : string :=
  String.concat "" (repeat "0" (width - String.length s)) ++ s.

(** [", ".join(l)] *)
Definition join (sep : string) (l : list string) : string := String.concat sep l.

End Str.

(** [format(x, '.2f')] *)
Definition format_2f (x : F64.float) : string :=
  match x with
  | S754_nan => "nan"
  | S754_infinity s => if s then "-inf" else "inf"
  | S754_zero s => (if s then "-" else "") ++ "0.00"
  | S754_finite s m e =>
      let k := F64.hundredths m e in
      (if s then "-" else "")
        ++ Str.of_N (Z.to_N (k / 100)) ++ "." ++ Str.zfill 2 (Str.of_N (Z.to_N (k mod 100)))
  end.

(** ** Calendar dates and timestamps *)

Record date : Type := Date { year : nat; month : nat; day : nat }.

Definition date_eqb (a b : date) : bool :=
  ((year a =? year b) && (month a =? month b) && (day a =? day b))%nat.

(** [a < b] on [datetime.date] *)
Definition date_ltb (a b : date) : bool :=
  ((year a <? year b)
   || ((year a =? year b)
       && ((month a <? month b) || ((month a =? month b) && (day a <? day b)))))%nat.

Definition is_leap (y : nat) : bool :=
  (((y mod 4 =? 0) && negb (y mod 100 =? 0)) || (y mod 400 =? 0))%nat.

Definition days_in_month (y m : nat) : nat :=
  match m with
  | 2 => if is_leap y then 29 else 28
  | 4 | 6 | 9 | 11 => 30
  | _ => 31
  end.

(** [d - timedelta(days=1)]; the day before [date.min] does not exist. *)
Definition date_minus_one_day (d : date) : result date :=
  match day d, month d, year d with
  | S (S d'), _, _ => Ok (Date (year d) (month d) (S d'))
  | _, S (S m'), _ => Ok (Date (year d) (S m') (days_in_month (year d) (S m')))
  | _, _, S (S y') => Ok (Date (S y') 12 31)
  | _, _, _ => Raise (Exception "OverflowError" "date value out of range")
  end.

(** A timestamp of the provider's index, by its wall-clock fields in the
    index's own time zone: [ts.date()] and [ts.strftime] read these. *)
Record Timestamp : Type := Stamp { ts_date : date; ts_hour : nat; ts_minute : nat }.

(** [ts.strftime('%Y-%m')], on the date of [ts]. *)
Definition strftime_Ym (d : date) : string :=
  Str.zfill 4 (Str.of_nat (year d)) ++ "-" ++ Str.zfill 2 (Str.of_nat (month d)).

(** [ts.strftime('%Y-%m-%d')] *)
Definition strftime_Ymd (ts : Timestamp) : string :=
  strftime_Ym (ts_date ts) ++ "-" ++ Str.zfill 2 (Str.of_nat (day (ts_date ts))).

(** [ts.strftime('%H:%M')] *)
Definition strftime_HM (ts : Timestamp) : string :=
  Str.zfill 2 (Str.of_nat (ts_hour ts)) ++ ":" ++ Str.zfill 2 (Str.of_nat (ts_minute ts)).

(** ** Price tables *)

(** One row of the provider's table; only the timestamp and the closing
    price are read by the application. *)
Record Bar : Type := mkBar { bar_ts : Timestamp; bar_close : F64.float }.

(** A [pandas.DataFrame] as the handlers see it: rows indexed by
    timestamps, with a ['Close'] column, with columns none of which is
    ['Close'], or with no column at all. *)
Inductive DataFrame : Type :=
| Frame (bars : list Bar)
| FrameNoClose (idx : list Timestamp)
| FrameNoColumns (idx : list Timestamp).

Module DF.

(** [data.index] *)
Definition index (data : DataFrame) : list Timestamp :=
  match data with
  | Frame bars => map bar_ts bars
  | FrameNoClose idx => idx
  | FrameNoColumns idx => idx
  end.

(** [data.empty]: no rows, or no columns. *)
Definition empty (data : DataFrame) : bool :=
  match data with
  | FrameNoColumns _ => true
  | _ => match index data with [] => true | _ => false end
  end.

(** [data[mask]] where the mask is computed row by row from the index. *)
Definition select (p : Timestamp -> bool) (data : DataFrame) : DataFrame :=
  match data with
  | Frame bars => Frame (List.filter (fun b => p (bar_ts b)) bars)
  | FrameNoClose idx => FrameNoClose (List.filter p idx)
  | FrameNoColumns idx => FrameNoColumns (List.filter p idx)
  end.

(** [l[-n:]] on rows: the last [n] of them, all when there are fewer. *)
Definition last_rows {A : Type} (n : nat) (l : list A) : list A :=
  skipn (length l - n) l.

(** [data.tail(n)] *)
Definition tail (n : nat) (data : DataFrame) : DataFrame :=
  match data with
  | Frame bars => Frame (last_rows n bars)
  | FrameNoClose idx => FrameNoClose (last_rows n idx)
  | FrameNoColumns idx => FrameNoColumns (last_rows n idx)
  end.

(** [data['Close']] *)
Definition Close (data : DataFrame) : result (list F64.float) :=
  match data with
  | Frame bars => Ok (map bar_close bars)
  | FrameNoClose _ | FrameNoColumns _ => Raise (Exception "KeyError" "'Close'")
  end.

(** [l[-1]] *)
Definition last_item {A : Type} (l : list A) : result A :=
  match List.last (map Some l) None with
  | Some x => Ok x
  | None => Raise (Exception "IndexError" "index out of bounds")
  end.

(** The order in which a contiguous array of doubles is added up by
    [ndarray.sum] (the pairwise summation of numpy's add reduction). *)

(** Fewer than 8 values: one accumulator that starts at [-0.0]. *)
Definition sum_few (a : list F64.float) : F64.float :=
  fold_left F64.add a (S754_zero true).

Definition acc8 : Type :=
  F64.float * F64.float * F64.float * F64.float
  * F64.float * F64.float * F64.float * F64.float.

(** The loop over the full blocks of 8 values behind the first one: value
    [i + j] goes to accumulator [j]. Returns the accumulators and the
    values left over, fewer than 8. *)
Fixpoint accumulate (r : acc8) (a : list F64.float) : acc8 * list F64.float :=
  match a with
  | x0 :: x1 :: x2 :: x3 :: x4 :: x5 :: x6 :: x7 :: rest =>
      let '(r0, r1, r2, r3, r4, r5, r6, r7) := r in
      accumulate (F64.add r0 x0, F64.add r1 x1, F64.add r2 x2, F64.add r3 x3,
                  F64.add r4 x4, F64.add r5 x5, F64.add r6 x6, F64.add r7 x7) rest
  | _ => (r, a)
  end.

(** From 8 values up to the block size: 8 accumulators over the full
    blocks of 8, combined as a tree, then the values left over one by
    one. *)
Definition sum_block (a : list F64.float) : F64.float :=
  match a with
  | x0 :: x1 :: x2 :: x3 :: x4 :: x5 :: x6 :: x7 :: rest =>
      let '((r0, r1, r2, r3, r4, r5, r6, r7), left_over) :=
        accumulate (x0, x1, x2, x3, x4, x5, x6, x7) rest in
      fold_left F64.add left_over
        (F64.add (F64.add (F64.add r0 r1) (F64.add r2 r3))
                 (F64.add (F64.add r4 r5) (F64.add r6 r7)))
  | _ => sum_few a
  end.

(** [PW_BLOCKSIZE] *)
Definition block_size : nat := 128.

(** Where an array of [n > block_size] values is cut in two: at half its
    length, rounded down to a multiple of 8. *)
Definition split_point (n : nat) : nat := n / 2 - (n / 2) mod 8.

(** The pairwise sum; each level of the recursion uses one unit of
    [fuel], and [length a] units are enough. *)
Fixpoint pairwise_sum (fuel : nat) (a : list F64.float) : F64.float :=
  let n := length a in
  if (n <? 8)%nat then sum_few a
  else if (n <=? block_size)%nat then sum_block a
  else
    match fuel with
    | O => sum_block a
    | S fuel' =>
        let n2 := split_point n in
        F64.add (pairwise_sum fuel' (firstn n2 a)) (pairwise_sum fuel' (skipn n2 a))
    end.

(** [values.sum()] on a contiguous array of doubles. *)
Definition sum (a : list F64.float) : F64.float := pairwise_sum (length a) a.

(** [series.mean()]: the NaN entries are replaced by [0.0], the values are
    added up in binary64 in the order of [sum], and the sum is divided by
    the number of entries that are not NaN; NaN when there is none. *)
Definition mean (closes : list F64.float) : F64.float :=
  let count := length (List.filter (fun x => negb (F64.is_nan x)) closes) in
  let filled :=
    map (fun x => if F64.is_nan x then S754_zero false else x) closes in
  match count with
  | O => S754_nan
  | _ => F64.div (sum filled) (F64.of_Z (Z.of_nat count))
  end.

End DF.

(** ** JSON objects *)

(** The values that the handlers put into their JSON objects. *)
Inductive json : Type :=
| JString (s : string)
| JInt (n : Z)
| JStrings (l : list string)
| JFloats (l : list F64.float).

Abbreviation dict := (gmap string json).

Definition error_dict (msg : string) : dict := {[ "error" := JString msg ]}.

Definition series_dict (ticker range : string) (labels : list string)
    (values : list F64.float) : dict :=
  {[ "ticker" := JString ticker;
     "range" := JString range;
     "labels" := JStrings labels;
     "values" := JFloats values;
     "count" := JInt (Z.of_nat (length values)) ]}.

(** ** The outside world *)

Record World : Type := mkWorld {
  (** [datetime.utcnow().date()] *)
  utc_today : date;
  (** [yf.Ticker(ticker).history(period=..., interval=...)] *)
  yf_history : string -> string -> string -> result DataFrame;
  (** [yf.Ticker(ticker).info] *)
  yf_info : string -> result (gmap string string);
}.

(** ** Market data adapter *)

(** [get_stock_data]: whatever the provider raises is printed and
    swallowed, and [None] is returned. *)
Definition get_stock_data (w : World) (ticker period interval : string)
  : option DataFrame :=
  match yf_history w ticker period interval with
  | Ok data => Some data
  | Raise _ => None
  end.

(** ** Series formatters *)

Local Open Scope result_scope.

(** The body of the [try] block of [format_daily_data]. *)
Definition format_daily_data_try (w : World) (ticker : string) : result dict :=
  match get_stock_data w ticker "1mo" "1d" with
  | None => Ok (error_dict "No data available")
  | Some data =>
      if DF.empty data then Ok (error_dict "No data available")
      else
        let today := utc_today w in
        let filtered := DF.select (fun ts => date_ltb (ts_date ts) today) data in
        if DF.empty filtered then Ok (error_dict "No historical data before today")
        else
          let recent := DF.tail 30 filtered in
          let labels := map strftime_Ymd (DF.index recent) in
          let! closes := DF.Close recent in
          let values := map F64.round2 closes in
          Ok (series_dict ticker "daily" labels values)
  end.

Definition format_daily_data (w : World) (ticker : string) : dict :=
  match format_daily_data_try w ticker with
  | Ok d => d
  | Raise e => error_dict (exn_str e)
  end.

(** Lines 62-69 of [format_intraday_data]: the rows of the day to show,
    yesterday's or else those of the day of the last row. *)
Definition intraday_select (w : World) (data : DataFrame) : result DataFrame :=
  let today := utc_today w in
  let! yesterday := date_minus_one_day today in
  let filtered := DF.select (fun ts => date_eqb (ts_date ts) yesterday) data in
  if DF.empty filtered && negb (DF.empty data) then
    let! last_ts := DF.last_item (DF.index data) in
    let last_date := ts_date last_ts in
    Ok (DF.select (fun ts => date_eqb (ts_date ts) last_date) data)
  else Ok filtered.

(** Lines 71-83 of [format_intraday_data]. *)
Definition intraday_respond (ticker : string) (filtered : DataFrame) : result dict :=
  if DF.empty filtered then Ok (error_dict "No intraday data available")
  else
    let labels := map strftime_HM (DF.index filtered) in
    let! closes := DF.Close filtered in
    let values := map F64.round2 closes in
    Ok (series_dict ticker "intraday" labels values).

(** The body of the [try] block of [format_intraday_data]. *)
Definition format_intraday_data_try (w : World) (ticker : string) : result dict :=
  match get_stock_data w ticker "2d" "30m" with
  | None => Ok (error_dict "No data available")
  | Some data =>
      if DF.empty data then Ok (error_dict "No data available")
      else
        let! filtered := intraday_select w data in
        intraday_respond ticker filtered
  end.

Definition format_intraday_data (w : World) (ticker : string) : dict :=
  match format_intraday_data_try w ticker with
  | Ok d => d
  | Raise e => error_dict (exn_str e)
  end.

(** The body of the [try] block of [format_monthly_data]. *)
Definition format_monthly_data_try (w : World) (ticker : string) : result dict :=
  match get_stock_data w ticker "1mo" "1d" with
  | None => Ok (error_dict "No data available")
  | Some data =>
      if DF.empty data then Ok (error_dict "No data available")
      else
        let! closes := DF.Close data in
        let avg_close := F64.round2 (DF.mean closes) in
        let! last_ts := DF.last_item (DF.index data) in
        let period_label := strftime_Ym (ts_date last_ts) in
        let labels := [period_label] in
        let values := [avg_close] in
        Ok (series_dict ticker "monthly" labels values)
  end.

Definition format_monthly_data (w : World) (ticker : string) : dict :=
  match format_monthly_data_try w ticker with
  | Ok d => d
  | Raise e => error_dict (exn_str e)
  end.

(** ** Module namespace and initialisation *)

(** What a global name of the module can be bound to. *)
Inductive pyobj : Type :=
| PyStr (s : string)
| PyModule (name : string)
| PyObject (type_name : string)
| PyTextApi (generate : string -> string -> result string).

Abbreviation namespace := (gmap string pyobj).

(** Reading a global name; no builtin is called [genai] or
    [GEMINI_API_KEY], so an unbound one is a [NameError]. *)
Definition load_name (g : namespace) (x : string) : result pyobj :=
  match g !! x with
  | Some v => Ok v
  | None => Raise (Exception "NameError" ("name '" ++ x ++ "' is not defined"))
  end.

Definition truthy (v : pyobj) : bool :=
  match v with
  | PyStr EmptyString => false
  | _ => true
  end.

Definition type_descr (v : pyobj) : string :=
  match v with
  | PyStr _ => "'str' object"
  | PyModule name => "module '" ++ name ++ "'"
  | PyObject type_name => "'" ++ type_name ++ "' object"
  | PyTextApi _ => "module 'google.generativeai'"
  end.

Definition no_attribute {A : Type} (v : pyobj) (attr : string) : result A :=
  Raise (Exception "AttributeError"
           (type_descr v ++ " has no attribute '" ++ attr ++ "'")).

(** [genai.configure(api_key=...)] *)
Definition genai_configure (genai : pyobj) (api_key : string) : result unit :=
  match genai with
  | PyTextApi _ => Ok tt
  | _ => no_attribute genai "configure"
  end.

(** [genai.GenerativeModel(name)], as the function that
    [model.generate_content(prompt).text] then computes. *)
Definition GenerativeModel (genai : pyobj) (name : string)
  : result (string -> result string) :=
  match genai with
  | PyTextApi generate => Ok (generate name)
  | _ => no_attribute genai "GenerativeModel"
  end.

Definition bind_all (names : list string) (v : pyobj) (g : namespace) : namespace :=
  foldr (fun x acc => <[x := v]> acc) g names.

(** Lines 1-6: the import statements. *)
Definition app_imports : namespace :=
  bind_all ["os"] (PyModule "os")
    (bind_all ["json"] (PyModule "json")
       (bind_all ["datetime"; "timedelta"] (PyObject "type")
          (bind_all ["yf"] (PyModule "yfinance")
             (bind_all ["CORS"] (PyObject "type")
                (bind_all ["Flask"; "jsonify"; "send_from_directory"]
                   (PyObject "function") ∅))))).

(** The top-level statements of the module up to the last handler, run in
    the environment [environ]: the namespace once the module is loaded, or
    the exception that stops the load. *)
Definition module_init (environ : gmap string string) : result namespace :=
  let g := app_imports in
  let g := <["app" := PyObject "Flask"]> g in
  let key := default "" (environ !! "GEMINI_API_KEY") in
  let g := <["GEMINI_API_KEY" := PyStr key]> g in
  let! _ :=
    if truthy (PyStr key) then
      let! genai := load_name g "genai" in
      genai_configure genai key
    else Ok tt in
  let g := <["cache" := PyObject "dict"]> g in
  Ok (bind_all ["get_stock_data"; "format_daily_data"; "format_intraday_data";
                "format_monthly_data"; "get_daily"; "get_monthly"; "get_intraday";
                "get_info"; "get_decision"; "health"; "index"; "serve_static"]
        (PyObject "function") g).

(** ** Outbound calls *)

Inductive Outbound : Type :=
| CallHistory (ticker period interval : string)
| CallInfo (ticker : string)
| CallGenerate (prompt : string).

(** A computation that may raise and that records the outbound calls it
    makes, in order. *)
Definition Eff (A : Type) : Type := list Outbound * result A.

Definition eret {A : Type} (a : A) : Eff A := ([], Ok a).

Definition ebind {A B : Type} (m : Eff A) (k : A -> Eff B) : Eff B :=
  match m with
  | (calls, Ok a) => let '(calls', r) := k a in ((calls ++ calls')%list, r)
  | (calls, Raise e) => (calls, Raise e)
  end.

(** A step that makes no outbound call. *)
Definition local {A : Type} (r : result A) : Eff A := ([], r).

(** A step that is one outbound call. *)
Definition outbound {A : Type} (c : Outbound) (r : result A) : Eff A := ([c], r).

Notation "'let*' x ':=' m 'in' k" := (ebind m (fun x => k))
  (at level 10, x pattern, m at level 100, k at level 200) : result_scope.

(** ** Decision service *)

Definition decision_dict (ticker action reason : string) : dict :=
  {[ "ticker" := JString ticker;
     "action" := JString action;
     "reason" := JString reason ]}.

(** [repr] of a list of strings none of which holds a quote. *)
Definition repr_list (l : list string) : string :=
  "[" ++ Str.join ", " (map (fun s => "'" ++ s ++ "'") l) ++ "]".

Definition build_prompt (ticker : string) (info : gmap string string)
    (current_price : F64.float) (recent_prices : list F64.float) : string :=
  "You are a trading advisor using reinforcement learning to analyze stock data."
  ++ Str.nl ++ Str.nl
  ++ "Ticker: " ++ ticker ++ Str.nl
  ++ "Company: " ++ default ticker (info !! "longName") ++ Str.nl
  ++ "Current Price: $" ++ format_2f current_price ++ Str.nl
  ++ "Recent 5-day closing prices: "
  ++ repr_list (map (fun p => "$" ++ format_2f p) recent_prices) ++ Str.nl ++ Str.nl
  ++ "Based on this data, provide a trading decision. Respond with ONLY one word: BUY, SELL, or HOLD."
  ++ Str.nl
  ++ "Then on a new line, provide a brief one-sentence reason (max 15 words)."
  ++ Str.nl ++ Str.nl
  ++ "Format:" ++ Str.nl ++ "ACTION" ++ Str.nl ++ "Reason here.".

Definition valid_actions : list string := ["BUY"; "SELL"; "HOLD"].

(** [action in ['BUY', 'SELL', 'HOLD']] *)
Definition is_valid_action (action : string) : bool :=
  existsb (String.eqb action) valid_actions.

(** Lines 188-195: the reply of the model turned into an action and a
    reason. *)
Definition parse_reply (text : string) : string * string :=
  let lines := Str.split_lines (Str.strip text) in
  let action := Str.upper (Str.strip (hd EmptyString lines)) in
  let reason :=
    match lines with
    | _ :: line1 :: _ => Str.strip line1
    | _ => "AI analysis complete."
    end in
  if is_valid_action action then (action, reason)
  else ("HOLD", "Unable to determine clear action; defaulting to HOLD.").

(** A Flask response: the JSON body and the HTTP status. *)
Definition response : Type := dict * nat.

(** The body of the [try] block of [get_decision], after
    [ticker = ticker.upper()]. The globals [GEMINI_API_KEY] and [genai] are
    read through the namespace [g]; [yf] and [jsonify] are what the import
    statements bind them to. *)
Definition get_decision_try (g : namespace) (w : World) (ticker : string)
  : Eff response :=
  let* key := local (load_name g "GEMINI_API_KEY") in
  if negb (truthy key) then
    eret (decision_dict ticker "HOLD"
            "No Gemini API key configured. Using default HOLD action.", 200)
  else
    let* hist := outbound (CallHistory ticker "5d" "1d") (yf_history w ticker "5d" "1d") in
    let* info := outbound (CallInfo ticker) (yf_info w ticker) in
    if DF.empty hist then eret (error_dict "No data available", 400)
    else
      let* closes := local (DF.Close hist) in
      let recent_prices := DF.last_rows 5 closes in
      let current_price := List.last recent_prices (S754_zero false) in
      let prompt := build_prompt ticker info current_price recent_prices in
      let* genai := local (load_name g "genai") in
      let* model := local (GenerativeModel genai "gemini-pro") in
      let* text := outbound (CallGenerate prompt) (model prompt) in
      let '(action, reason) := parse_reply text in
      eret (decision_dict ticker action reason, 200).

(** [get_decision]: the response, and the outbound calls made on the way. *)
Definition get_decision (g : namespace) (w : World) (ticker : string)
  : list Outbound * response :=
  let ticker := Str.upper ticker in
  match get_decision_try g w ticker with
  | (calls, Ok r) => (calls, r)
  | (calls, Raise e) =>
      (calls, (decision_dict ticker "HOLD"
                 ("Error during analysis: " ++ Str.take 50 (exn_str e)), 200))
  end.

(** ** Routes *)

(** A handler that returns [jsonify(d)] answers with status 200. *)
Definition jsonify (d : dict) : response := (d, 200).

Definition get_daily (w : World) (ticker : string) : response :=
  jsonify (format_daily_data w (Str.upper ticker)).

Definition get_monthly (w : World) (ticker : string) : response :=
  jsonify (format_monthly_data w (Str.upper ticker)).

Definition get_intraday (w : World) (ticker : string) : response :=
  jsonify (format_intraday_data w (Str.upper ticker)).

(** ** Shapes of the JSON objects, in the words of the specification *)

(** A [SeriesResponse]: labels, values and count agree in length, and there
    is no error field. *)
Definition SeriesResponse (d : dict) : Prop :=
  exists ticker range labels values,
    d = series_dict ticker range labels values
    /\ d !! "labels" = Some (JStrings labels)
    /\ d !! "values" = Some (JFloats values)
    /\ d !! "count" = Some (JInt (Z.of_nat (length labels)))
    /\ length labels = length values
    /\ d !! "error" = None.

(** [{error: string}] and nothing else. *)
Definition ErrorOnly (d : dict) : Prop :=
  exists msg, d = error_dict msg /\ dom d = ({[ "error" ]} : gset string).

(** A [DecisionResponse] whose action is one of the three words. *)
Definition DecisionResponse (d : dict) : Prop :=
  exists ticker action reason,
    d = decision_dict ticker action reason /\ In action valid_actions.

(** ** The formatters on a well-formed table *)

Definition bar_date (b : Bar) : date := ts_date (bar_ts b).

(** The rows that [format_daily_data] keeps after its date filter. *)
Definition daily_filtered (w : World) (bars : list Bar) : list Bar :=
  List.filter (fun b => date_ltb (bar_date b) (utc_today w)) bars.

(** The rows that [format_daily_data] reports. *)
Definition daily_recent (w : World) (bars : list Bar) : list Bar :=
  DF.last_rows 30 (daily_filtered w bars).

(** The rows that [format_intraday_data] reports when yesterday is
    [yesterday]: yesterday's rows, or else the rows of the day of the last
    row. *)
Definition intraday_rows (yesterday : date) (bars : list Bar) : list Bar :=
  match List.filter (fun b => date_eqb (bar_date b) yesterday) bars with
  | [] =>
      match List.last (map Some bars) None with
      | Some last_bar =>
          List.filter (fun b => date_eqb (bar_date b) (bar_date last_bar)) bars
      | None => []
      end
  | sel => sel
  end.

(** One of the two shapes. *)
Definition well_shaped (d : dict) : Prop := SeriesResponse d \/ ErrorOnly d.

(** Exactly one of the two shapes. *)
Definition one_shape (d : dict) : Prop :=
  (SeriesResponse d \/ ErrorOnly d) /\ ~ (SeriesResponse d /\ ErrorOnly d).

(** No data at all: the adapter returned [None], or a table that is empty
    (without rows, or without columns). *)
Definition no_data (fetched : option DataFrame) : Prop :=
  match fetched with
  | None => True
  | Some data => DF.empty data = true
  end.

(** ** The decision service, in the words of the specification *)

(** The prompt that [get_decision] builds from the closes of the table. *)
Definition decision_prompt (ticker : string) (info : gmap string string)
    (closes : list F64.float) : string :=
  let recent_prices := DF.last_rows 5 closes in
  build_prompt ticker info (List.last recent_prices (S754_zero false)) recent_prices.

(** The steps of the configured-credential path that can raise: the two
    requests to the market-data provider, the column lookup, the lookup of
    the text-generation module, the construction of the model and the
    request to it (which includes reading the text of the reply). *)
Inductive decision_failure (g : namespace) (w : World) (ticker : string)
  : exn -> Prop :=
| fail_history e :
    yf_history w ticker "5d" "1d" = Raise e ->
    decision_failure g w ticker e
| fail_info hist e :
    yf_history w ticker "5d" "1d" = Ok hist ->
    yf_info w ticker = Raise e ->
    decision_failure g w ticker e
| fail_close hist info e :
    yf_history w ticker "5d" "1d" = Ok hist ->
    yf_info w ticker = Ok info ->
    DF.empty hist = false ->
    DF.Close hist = Raise e ->
    decision_failure g w ticker e
| fail_genai hist info closes e :
    yf_history w ticker "5d" "1d" = Ok hist ->
    yf_info w ticker = Ok info ->
    DF.empty hist = false ->
    DF.Close hist = Ok closes ->
    load_name g "genai" = Raise e ->
    decision_failure g w ticker e
| fail_model hist info closes genai e :
    yf_history w ticker "5d" "1d" = Ok hist ->
    yf_info w ticker = Ok info ->
    DF.empty hist = false ->
    DF.Close hist = Ok closes ->
    load_name g "genai" = Ok genai ->
    GenerativeModel genai "gemini-pro" = Raise e ->
    decision_failure g w ticker e
| fail_generate hist info closes genai model e :
    yf_history w ticker "5d" "1d" = Ok hist ->
    yf_info w ticker = Ok info ->
    DF.empty hist = false ->
    DF.Close hist = Ok closes ->
    load_name g "genai" = Ok genai ->
    GenerativeModel genai "gemini-pro" = Ok model ->
    model (decision_prompt ticker info closes) = Raise e ->
    decision_failure g w ticker e.

(** The fail-open answer. *)
Definition hold_on_error (ticker : string) (e : exn) : response :=
  (decision_dict ticker "HOLD"
     ("Error during analysis: " ++ Str.take 50 (exn_str e)), 200).

(** The first line of the reply, trimmed and uppercased; the reply itself
    is trimmed before it is split into lines (line 188), so blank lines
    ahead of the first word do not count. *)
Definition action_candidate (text : string) : string :=
  Str.upper (Str.strip (hd EmptyString (Str.split_lines (Str.strip text)))).

Definition genai_name_error : exn :=
  Exception "NameError" "name 'genai' is not defined".

(** The action field of a response body. *)
Definition action_of (r : response) : option json := fst r !! "action".





(** ** Sample tables *)

Module Sample.

Definition daily_bar (y m d : nat) (close_thousandths : Z) : Bar :=
  mkBar (Stamp (Date y m d) 0 0) (F64.of_decimal close_thousandths 3).

Definition half_hour_bar (y m d h mi : nat) (close_thousandths : Z) : Bar :=
  mkBar (Stamp (Date y m d) h mi) (F64.of_decimal close_thousandths 3).

(** Monday 3 June 2024. *)
Definition monday : date := Date 2024 6 3.

(** Two completed sessions and the session of [monday], still open. *)
Definition daily_bars : list Bar :=
  [daily_bar 2024 5 30 100004; daily_bar 2024 5 31 100006;
   daily_bar 2024 6 3 101500].

(** Closes 100.004 and 100.006. *)
Definition two_closes : list Bar :=
  [daily_bar 2024 5 30 100004; daily_bar 2024 5 31 100006].

(** Half-hour bars of Friday 31 May 2024 only. *)
Definition friday_bars : list Bar :=
  [half_hour_bar 2024 5 31 15 0 100250; half_hour_bar 2024 5 31 15 30 100375].

Definition world_of (today : date) (daily intraday : result DataFrame) : World :=
  {| utc_today := today;
     yf_history := fun _ _ interval =>
       if String.eqb interval "30m" then intraday else daily;
     yf_info := fun _ => Ok ∅ |}.

(** On [monday], with a bar dated [monday] in the daily table and only
    Friday's bars in the half-hour table. *)
Definition world : World :=
  world_of monday (Ok (Frame daily_bars)) (Ok (Frame friday_bars)).

(** The daily table holds exactly the closes 100.004 and 100.006. *)
Definition world_two_closes : World :=
  world_of monday (Ok (Frame two_closes)) (Ok (Frame friday_bars)).

(** Every bar of the daily table is dated [monday]. *)
Definition world_only_today : World :=
  world_of monday (Ok (Frame [daily_bar 2024 6 3 101500])) (Ok (Frame friday_bars)).

(** The provider answers with tables that have no rows. *)
Definition world_no_rows : World :=
  world_of monday (Ok (Frame [])) (Ok (Frame [])).

Definition connection_error : exn :=
  Exception "ConnectionError"
    "HTTPSConnectionPool(host='query2.finance.yahoo.com', port=443): Max retries exceeded".

(** The provider raises on every request. *)
Definition world_offline : World :=
  world_of monday (Raise connection_error) (Raise connection_error).

(** Closes of eight sessions on which the order of the additions shows
    in the second decimal of the mean. *)
Definition eight_closes : list F64.float :=
  map (fun n => F64.of_decimal n 2)
    [12157; 96881; 27913; 90306; 17711; 51825; 30025; 84570]%Z.

(** The provider's tables have rows but no column at all. *)
Definition world_no_columns : World :=
  world_of monday
    (Ok (FrameNoColumns [Stamp (Date 2024 5 31) 0 0]))
    (Ok (FrameNoColumns [Stamp (Date 2024 5 31) 15 30])).

(** The provider's tables have rows but no ['Close'] column. *)
Definition world_no_close : World :=
  world_of monday
    (Ok (FrameNoClose [Stamp (Date 2024 5 31) 0 0]))
    (Ok (FrameNoClose [Stamp (Date 2024 5 31) 15 30])).

(** The namespace of the module loaded without a credential. *)
Definition loaded : namespace :=
  match module_init ∅ with
  | Ok g => g
  | Raise _ => ∅
  end.

(** The same with [GEMINI_API_KEY] set after the load. *)
Definition configured : namespace :=
  <["GEMINI_API_KEY" := PyStr "secret"]> loaded.

(** The same with a text-generation module bound to [genai] whose model
    answers every prompt with [reply]. *)
Definition with_model (reply : result string) : namespace :=
  <["genai" := PyTextApi (fun _ _ => reply)]> configured.

End Sample.


(** ** The reply of the model, in the words of the specification *)

(** A string of whitespace only. *)
Definition blank (s : string) : bool :=
  forallb Str.is_space (list_ascii_of_string s).

(** The first line of a text: what stands before its first newline. *)
Definition first_line (text : string) : string :=
  hd EmptyString (Str.split_lines text).

(** The first line of the reply as it stands, trimmed and uppercased. *)
Definition reply_first_line (text : string) : string :=
  Str.upper (Str.strip (first_line text)).

(** ** Basic stock info *)

(** [info.get(key, 'N/A')]; the values of the provider's dictionary are
    carried as text. *)
Definition info_field (info : gmap string string) (key : string) : json :=
  JString (default "N/A" (info !! key)).

Definition info_dict (ticker : string) (info : gmap string string) : dict :=
  {[ "ticker" := JString ticker;
     "name" := info_field info "longName";
     "price" := info_field info "currentPrice";
     "change" := info_field info "regularMarketChange";
     "changePercent" := info_field info "regularMarketChangePercent" ]}.

(** The body of the [try] block of [get_info]. *)
Definition get_info_try (w : World) (ticker : string) : Eff response :=
  let ticker := Str.upper ticker in
  let* info := outbound (CallInfo ticker) (yf_info w ticker) in
  eret (info_dict ticker info, 200).

(** [get_info]: the response, and the outbound calls made on the way. *)
Definition get_info (w : World) (ticker : string) : list Outbound * response :=
  match get_info_try w ticker with
  | (calls, Ok r) => (calls, r)
  | (calls, Raise e) => (calls, (error_dict (exn_str e), 400))
  end.

(** [health] *)
Definition health : response := ({[ "status" := JString "ok" ]}, 200).

(** ** Further notions used in the properties *)

(** The rows of a table that are not dated before today. *)
Definition not_before_today (w : World) (b : Bar) : Prop :=
  date_ltb (bar_date b) (utc_today w) = false.

(** The calendar day that [format_intraday_data] reports on a table:
    yesterday when a row is dated yesterday, else the day of the last
    row. *)
Definition intraday_day (yesterday : date) (bars : list Bar) : option date :=
  if existsb (fun b => date_eqb (bar_date b) yesterday) bars then Some yesterday
  else option_map bar_date (List.last (map Some bars) None).

(** The three outbound calls of a decision, in the order of the source. *)
Definition decision_calls (ticker prompt : string) : list Outbound :=
  [CallHistory ticker "5d" "1d"; CallInfo ticker; CallGenerate prompt].

(** The status of a response. *)
Definition status_of (r : response) : nat := snd r.
(** * Properties *)

(** ** Worked values *)

(** [round(100.006, 2) == 100.01] *)
Example round2_up :
  F64.round2 (F64.of_decimal 100006 3) = F64.of_decimal 10001 2.
Proof. vm_compute. reflexivity. Qed.

(** [round(2.675, 2) == 2.67]: the double 2.675 lies below the decimal. *)
Example round2_below_half :
  F64.round2 (F64.of_decimal 2675 3) = F64.of_decimal 267 2.
Proof. vm_compute. reflexivity. Qed.

(** [round(-0.001, 2)] is [-0.0]. *)
Example round2_negative_zero :
  F64.round2 (F64.of_decimal (-1) 3) = S754_zero true.
Proof. vm_compute. reflexivity. Qed.

(** [(100.004 + 100.006) / 2] *)
Example mean_two_closes :
  DF.mean [F64.of_decimal 100004 3; F64.of_decimal 100006 3]
  = F64.div (F64.add (F64.of_decimal 100004 3) (F64.of_decimal 100006 3)) (F64.of_Z 2).
Proof. vm_compute. reflexivity. Qed.

Example format_2f_values :
  map format_2f [F64.of_decimal 100004 3; F64.of_decimal 99999 3;
                 F64.of_decimal (-123456) 2; F64.of_Z 0; S754_nan]
  = ["100.00"; "100.00"; "-1234.56"; "0.00"; "nan"].
Proof. vm_compute. reflexivity. Qed.

Example strftime_values :
  (strftime_Ymd (Stamp (Date 2024 3 9) 9 5),
   strftime_HM (Stamp (Date 2024 3 9) 9 5),
   strftime_Ym (Date 2024 3 9))
  = ("2024-03-09", "09:05", "2024-03").
Proof. vm_compute. reflexivity. Qed.

Example date_minus_one_day_values :
  map date_minus_one_day [Date 2024 3 1; Date 2023 3 1; Date 2024 1 1; Date 2024 6 3]
  = map Ok [Date 2024 2 29; Date 2023 2 28; Date 2023 12 31; Date 2024 6 2].
Proof. vm_compute. reflexivity. Qed.

Example date_minus_one_day_min :
  date_minus_one_day (Date 1 1 1)
  = Raise (Exception "OverflowError" "date value out of range").
Proof. reflexivity. Qed.

Example strip_split_values :
  Str.split_lines (Str.strip ("  BUY " ++ Str.nl ++ "Strong trend." ++ Str.nl))
  = ["BUY "; "Strong trend."].
Proof. vm_compute. reflexivity. Qed.

(** ** Dictionaries *)

Lemma error_dict_lookup msg : error_dict msg !! "error" = Some (JString msg).
Proof. apply lookup_singleton_eq. Qed.

Lemma error_dict_inj a b : error_dict a = error_dict b -> a = b.
Proof.
  intros H. apply (f_equal (fun d : dict => d !! "error")) in H.
  rewrite !error_dict_lookup in H. congruence.
Qed.

Lemma error_dict_ErrorOnly msg : ErrorOnly (error_dict msg).
Proof. exists msg. split; [reflexivity|]. unfold error_dict. apply dom_singleton_L. Qed.

Lemma series_dict_lookup_error t r l v : series_dict t r l v !! "error" = None.
Proof. reflexivity. Qed.

Lemma series_dict_SeriesResponse t r l v :
  length l = length v -> SeriesResponse (series_dict t r l v).
Proof.
  intros Hlen. exists t, r, l, v.
  repeat split; try reflexivity; try assumption.
  rewrite Hlen. reflexivity.
Qed.

Lemma SeriesResponse_not_ErrorOnly d : SeriesResponse d -> ErrorOnly d -> False.
Proof.
  intros (t & r & l & v & -> & _) (msg & Heq & _).
  apply (f_equal (fun d : dict => d !! "error")) in Heq.
  rewrite series_dict_lookup_error, error_dict_lookup in Heq. discriminate.
Qed.

(** ** Rows *)

Lemma last_rows_suffix {A : Type} (n : nat) (l : list A) :
  DF.last_rows n l `suffix_of` l.
Proof. unfold DF.last_rows. apply suffix_drop. Qed.


Lemma last_rows_length {A : Type} (n : nat) (l : list A) :
  length (DF.last_rows n l) = Nat.min n (length l).
Proof. unfold DF.last_rows. rewrite length_drop. lia. Qed.

Lemma filter_sublist {A : Type} (p : A -> bool) (l : list A) :
  List.filter p l `sublist_of` l.
Proof.
  induction l as [|x l IH]; simpl.
  - constructor.
  - destruct (p x); by constructor.
Qed.


Lemma last_item_map_last {A : Type} (l : list A) (x : A) :
  DF.last_item (l ++ [x]) = Ok x.
Proof.
  unfold DF.last_item. rewrite map_app. simpl. rewrite List.last_last. reflexivity.
Qed.

Lemma format_daily_data_frame (w : World) (ticker : string) (bars : list Bar) :
  yf_history w ticker "1mo" "1d" = Ok (Frame bars) ->
  format_daily_data w ticker =
    match bars, daily_filtered w bars with
    | [], _ => error_dict "No data available"
    | _, [] => error_dict "No historical data before today"
    | _, _ =>
        series_dict ticker "daily"
          (map strftime_Ymd (map bar_ts (daily_recent w bars)))
          (map F64.round2 (map bar_close (daily_recent w bars)))
    end.
Proof.
  intros Hfetch.
  unfold format_daily_data, format_daily_data_try, get_stock_data.
  rewrite Hfetch. destruct bars as [|b bars]; [reflexivity|].
  unfold daily_recent, daily_filtered, bar_date.
  change (DF.empty (Frame (b :: bars))) with false. cbv iota.
  unfold DF.select.
  destruct (List.filter _ (b :: bars)) as [|f fs]; reflexivity.
Qed.

Lemma date_eqb_refl (d : date) : date_eqb d d = true.
Proof. unfold date_eqb. rewrite !Nat.eqb_refl. reflexivity. Qed.

Lemma date_eqb_eq (a b : date) : date_eqb a b = true <-> a = b.
Proof.
  destruct a as [ya ma da], b as [yb mb db]. unfold date_eqb. simpl.
  rewrite !andb_true_iff, !Nat.eqb_eq. split.
  - intros [[-> ->] ->]. reflexivity.
  - intros [= -> -> ->]. auto.
Qed.

Lemma date_ltb_irrefl (d : date) : date_ltb d d = false.
Proof.
  unfold date_ltb. rewrite !Nat.ltb_irrefl, !andb_false_r. reflexivity.
Qed.

Lemma intraday_rows_nonempty (yesterday : date) (bars : list Bar) :
  bars <> [] -> intraday_rows yesterday bars <> [].
Proof.
  intros Hne. unfold intraday_rows.
  destruct (List.filter _ bars) as [|s sel] eqn:Hsel; [|discriminate].
  destruct (exists_last Hne) as (front & last_bar & ->).
  rewrite map_app. simpl. rewrite List.last_last.
  rewrite List.filter_app. simpl. rewrite date_eqb_refl.
  intros H. by apply app_eq_nil in H as [_ ?].
Qed.

Lemma intraday_select_frame (w : World) (bars : list Bar) (yesterday : date) :
  bars <> [] ->
  date_minus_one_day (utc_today w) = Ok yesterday ->
  intraday_select w (Frame bars) = Ok (Frame (intraday_rows yesterday bars)).
Proof.
  intros Hne Hy. unfold intraday_select. rewrite Hy. cbn [rbind].
  unfold intraday_rows, bar_date. cbn [DF.select].
  destruct (exists_last Hne) as (front & last_bar & ->).
  destruct (List.filter _ (front ++ [last_bar])) as [|s sel] eqn:Hsel.
  - replace (DF.empty (Frame (front ++ [last_bar]))) with false
      by (destruct front; reflexivity).
    cbn [DF.empty DF.index map andb negb]. cbn [DF.index].
    rewrite !map_app. cbn [map]. rewrite last_item_map_last, List.last_last.
    reflexivity.
  - reflexivity.
Qed.

Lemma intraday_respond_frame (ticker : string) (rows : list Bar) :
  rows <> [] ->
  intraday_respond ticker (Frame rows) =
    Ok (series_dict ticker "intraday"
          (map strftime_HM (map bar_ts rows))
          (map F64.round2 (map bar_close rows))).
Proof. destruct rows; [congruence | reflexivity]. Qed.

Lemma format_intraday_data_frame
    (w : World) (ticker : string) (bars : list Bar) (yesterday : date) :
  yf_history w ticker "2d" "30m" = Ok (Frame bars) ->
  bars <> [] ->
  date_minus_one_day (utc_today w) = Ok yesterday ->
  format_intraday_data w ticker =
    series_dict ticker "intraday"
      (map strftime_HM (map bar_ts (intraday_rows yesterday bars)))
      (map F64.round2 (map bar_close (intraday_rows yesterday bars))).
Proof.
  intros Hfetch Hne Hy.
  unfold format_intraday_data, format_intraday_data_try, get_stock_data.
  rewrite Hfetch.
  replace (DF.empty (Frame bars)) with false by (destruct bars; [congruence | reflexivity]).
  rewrite (intraday_select_frame w bars yesterday Hne Hy). cbn [rbind].
  rewrite intraday_respond_frame by (by apply intraday_rows_nonempty).
  reflexivity.
Qed.

Lemma format_monthly_data_frame
    (w : World) (ticker : string) (front : list Bar) (last_bar : Bar) :
  yf_history w ticker "1mo" "1d" = Ok (Frame (front ++ [last_bar])) ->
  format_monthly_data w ticker =
    series_dict ticker "monthly"
      [strftime_Ym (bar_date last_bar)]
      [F64.round2 (DF.mean (map bar_close (front ++ [last_bar])))].
Proof.
  intros Hfetch.
  unfold format_monthly_data, format_monthly_data_try, get_stock_data.
  rewrite Hfetch.
  replace (DF.empty (Frame (front ++ [last_bar]))) with false
    by (destruct front; reflexivity).
  cbn [DF.Close rbind DF.index]. rewrite map_app. cbn [map].
  rewrite last_item_map_last. reflexivity.
Qed.

(** ** Shape of every formatter result *)

Lemma well_shaped_error msg : well_shaped (error_dict msg).
Proof. right. apply error_dict_ErrorOnly. Qed.

Lemma well_shaped_series t r (rows : list Bar) (f : Timestamp -> string) :
  well_shaped (series_dict t r (map f (map bar_ts rows))
                 (map F64.round2 (map bar_close rows))).
Proof. left. apply series_dict_SeriesResponse. by rewrite !length_map. Qed.

Create HintDb shapes.
#[local] Hint Resolve well_shaped_error well_shaped_series : shapes.

Lemma format_daily_data_shape (w : World) (ticker : string) :
  well_shaped (format_daily_data w ticker).
Proof.
  destruct (yf_history w ticker "1mo" "1d") as [[bars|idx|idx]|e] eqn:Hfetch.
  - rewrite (format_daily_data_frame w ticker bars Hfetch).
    destruct bars as [|b bars]; [auto with shapes|].
    destruct (daily_filtered w (b :: bars)); auto with shapes.
  - unfold format_daily_data, format_daily_data_try, get_stock_data.
    rewrite Hfetch. destruct idx as [|i idx]; [apply well_shaped_error|].
    change (DF.empty (FrameNoClose (i :: idx))) with false. cbv iota.
    cbn [DF.select]. destruct (List.filter _ (i :: idx)); cbn; auto with shapes.
  - unfold format_daily_data, format_daily_data_try, get_stock_data.
    rewrite Hfetch. apply well_shaped_error.
  - unfold format_daily_data, format_daily_data_try, get_stock_data.
    rewrite Hfetch. auto with shapes.
Qed.

Lemma intraday_respond_shape (ticker : string) (filtered : DataFrame) :
  well_shaped match intraday_respond ticker filtered with
              | Ok d => d
              | Raise e => error_dict (exn_str e)
              end.
Proof.
  destruct filtered as [[|b rows]|[|i idx]|idx]; cbn; auto with shapes.
  apply (well_shaped_series ticker "intraday" (b :: rows) strftime_HM).
Qed.

Lemma format_intraday_data_shape (w : World) (ticker : string) :
  well_shaped (format_intraday_data w ticker).
Proof.
  unfold format_intraday_data, format_intraday_data_try, get_stock_data.
  destruct (yf_history w ticker "2d" "30m") as [data|e]; [|auto with shapes].
  destruct (DF.empty data); [auto with shapes|].
  destruct (intraday_select w data) as [filtered|e]; cbn [rbind];
    [apply intraday_respond_shape | auto with shapes].
Qed.

Lemma format_monthly_data_shape (w : World) (ticker : string) :
  well_shaped (format_monthly_data w ticker).
Proof.
  destruct (yf_history w ticker "1mo" "1d") as [[bars|idx|idx]|e] eqn:Hfetch.
  - destruct bars as [|b bars].
    + unfold format_monthly_data, format_monthly_data_try, get_stock_data.
      rewrite Hfetch. apply well_shaped_error.
    + destruct (exists_last (l := b :: bars)) as (front & last_bar & Heq);
        [discriminate|].
      rewrite Heq in Hfetch. rewrite (format_monthly_data_frame w ticker _ _ Hfetch).
      left. by apply series_dict_SeriesResponse.
  - unfold format_monthly_data, format_monthly_data_try, get_stock_data.
    rewrite Hfetch. destruct idx; apply well_shaped_error.
  - unfold format_monthly_data, format_monthly_data_try, get_stock_data.
    rewrite Hfetch. apply well_shaped_error.
  - unfold format_monthly_data, format_monthly_data_try, get_stock_data.
    rewrite Hfetch. auto with shapes.
Qed.

Lemma well_shaped_one_shape (d : dict) : well_shaped d -> one_shape d.
Proof.
  intros Hd. split; [exact Hd|].
  intros [Hs He]. exact (SeriesResponse_not_ErrorOnly d Hs He).
Qed.

(** C1. Whatever the ticker and whatever the provider and the clock
    answer, each of the three formatters returns either a series object
    whose labels, values and count have one and the same length (and which
    has no error field), or an object holding an error string and nothing
    else; never both at once. *)
Theorem formatters_series_or_error (w : World) (ticker : string) :
  one_shape (format_daily_data w ticker)
  /\ one_shape (format_intraday_data w ticker)
  /\ one_shape (format_monthly_data w ticker).
Proof.
  split; [|split]; apply well_shaped_one_shape.
  - apply format_daily_data_shape.
  - apply format_intraday_data_shape.
  - apply format_monthly_data_shape.
Qed.

(** ** Labels *)







(** ** Daily series *)





(** ** Intraday series *)

Lemma last_item_inv {A : Type} (l : list A) (x : A) :
  DF.last_item l = Ok x -> exists front : list A, l = (front ++ [x])%list.
Proof.
  destruct l as [|a l]; [discriminate|].
  destruct (exists_last (l := a :: l)) as (front & y & Heq); [discriminate|].
  rewrite Heq, last_item_map_last. intros [= ->]. by exists front.
Qed.

Lemma last_item_raise_inv {A : Type} (l : list A) (e : exn) :
  DF.last_item l = Raise e -> l = [].
Proof.
  destruct l as [|a l]; [reflexivity|].
  destruct (exists_last (l := a :: l)) as (front & y & Heq); [discriminate|].
  rewrite Heq, last_item_map_last. discriminate.
Qed.

Lemma select_last_date_nonempty (data : DataFrame) (last_ts : Timestamp) :
  DF.empty data = false ->
  DF.last_item (DF.index data) = Ok last_ts ->
  DF.empty (DF.select (fun ts => date_eqb (ts_date ts) (ts_date last_ts)) data) = false.
Proof.
  intros Hdata Hlast. apply last_item_inv in Hlast as [front Hidx].
  destruct data as [bars|idx|idx]; [| |discriminate];
    cbn [DF.index] in Hidx; unfold DF.empty; cbn [DF.select DF.index].
  - destruct (exists_last (l := bars)) as (bfront & b & ->).
    { intros ->. by destruct front. }
    rewrite map_app in Hidx. cbn [map] in Hidx.
    apply app_inj_tail in Hidx as [_ Hb].
    rewrite List.filter_app, map_app. cbn [List.filter]. rewrite Hb, date_eqb_refl.
    by destruct (map bar_ts (List.filter _ bfront)).
  - subst idx. rewrite List.filter_app. cbn [List.filter]. rewrite date_eqb_refl.
    by destruct (List.filter _ front).
Qed.

Lemma intraday_select_nonempty (w : World) (data filtered : DataFrame) :
  DF.empty data = false ->
  intraday_select w data = Ok filtered ->
  DF.empty filtered = false.
Proof.
  intros Hdata. unfold intraday_select.
  destruct (date_minus_one_day (utc_today w)) as [yesterday|e]; [|discriminate].
  cbn [rbind]. rewrite Hdata. cbn [negb].
  destruct (DF.empty (DF.select _ data)) eqn:Hsel; cbn [andb].
  - destruct (DF.last_item (DF.index data)) as [last_ts|e] eqn:Hlast; [|discriminate].
    cbn [rbind]. intros [= <-]. by apply select_last_date_nonempty.
  - intros [= <-]. exact Hsel.
Qed.

Lemma empty_of_index_nil (data : DataFrame) :
  DF.index data = [] -> DF.empty data = true.
Proof. destruct data; cbn [DF.index]; intros Hidx; unfold DF.empty; cbn; by rewrite ?Hidx. Qed.

Lemma intraday_select_raise (w : World) (data : DataFrame) (e : exn) :
  DF.empty data = false ->
  intraday_select w data = Raise e ->
  e = Exception "OverflowError" "date value out of range".
Proof.
  intros Hdata. unfold intraday_select, date_minus_one_day.
  destruct (utc_today w) as [[|[|y]] [|[|m]] [|[|d]]]; cbn [rbind year month day];
    try (intros [= <-]; reflexivity);
    rewrite Hdata; cbn [negb];
    (destruct (DF.empty (DF.select _ data)); cbn [andb]; [|discriminate]);
    (destruct (DF.last_item (DF.index data)) as [last_ts|e'] eqn:Hlast; [discriminate|]);
    apply last_item_raise_inv, empty_of_index_nil in Hlast;
    rewrite Hlast in Hdata; discriminate.
Qed.

Lemma series_dict_not_error t r l v msg : series_dict t r l v <> error_dict msg.
Proof.
  intros H. apply (f_equal (fun d : dict => d !! "error")) in H.
  rewrite series_dict_lookup_error, error_dict_lookup in H. discriminate.
Qed.

Lemma intraday_respond_nonempty (ticker : string) (filtered : DataFrame) :
  DF.empty filtered = false ->
  match intraday_respond ticker filtered with
  | Ok d => d
  | Raise e => error_dict (exn_str e)
  end <> error_dict "No intraday data available".
Proof.
  intros Hne. unfold intraday_respond. rewrite Hne.
  destruct filtered as [rows|idx|idx]; cbn [DF.Close rbind].
  - apply series_dict_not_error.
  - intros H. apply error_dict_inj in H. discriminate.
  - discriminate.
Qed.

Lemma format_intraday_data_never_no_intraday (w : World) (ticker : string) :
  format_intraday_data w ticker <> error_dict "No intraday data available".
Proof.
  unfold format_intraday_data, format_intraday_data_try, get_stock_data.
  destruct (yf_history w ticker "2d" "30m") as [data|e].
  2: { intros H. apply error_dict_inj in H. discriminate. }
  destruct (DF.empty data) eqn:Hdata.
  { intros H. apply error_dict_inj in H. discriminate. }
  destruct (intraday_select w data) as [filtered|e] eqn:Hsel; cbn [rbind].
  - apply intraday_respond_nonempty.
    by apply (intraday_select_nonempty w data filtered).
  - apply intraday_select_raise in Hsel as ->; [|exact Hdata].
    intros H. apply error_dict_inj in H. discriminate.
Qed.

Lemma filter_none {A : Type} (p : A -> bool) (l : list A) :
  Forall (fun x => p x = false) l -> List.filter p l = [].
Proof.
  induction 1 as [|x l Hx _ IH]; [reflexivity|].
  cbn [List.filter]. rewrite Hx. exact IH.
Qed.

Lemma intraday_rows_fallback (yesterday : date) (front : list Bar) (last_bar : Bar) :
  Forall (fun b => bar_date b <> yesterday) (front ++ [last_bar]) ->
  intraday_rows yesterday (front ++ [last_bar]) =
    List.filter (fun b => date_eqb (bar_date b) (bar_date last_bar)) (front ++ [last_bar]).
Proof.
  intros Hnone. unfold intraday_rows.
  rewrite filter_none.
  - rewrite map_app. cbn [map]. rewrite List.last_last. reflexivity.
  - eapply List.Forall_impl; [|exact Hnone].
    intros b Hb. cbv beta in Hb. destruct (date_eqb (bar_date b) yesterday) eqn:E; [|reflexivity].
    apply date_eqb_eq in E. contradiction.
Qed.

(** C7. On a half-hour table with at least one row none of whose rows is
    dated yesterday (UTC today minus one day), the formatter reports the
    rows that share the date of the last row, and the result is a series,
    not an error. The error text of the empty-selection branch is never
    returned, whatever the provider and the clock answer. *)
Theorem format_intraday_data_fallback :
  (forall (w : World) (ticker : string) (bars : list Bar) (yesterday : date),
      yf_history w ticker "2d" "30m" = Ok (Frame bars) ->
      bars <> [] ->
      date_minus_one_day (utc_today w) = Ok yesterday ->
      Forall (fun b => bar_date b <> yesterday) bars ->
      exists last_bar,
        List.last (map Some bars) None = Some last_bar
        /\ let rows :=
             List.filter (fun b => date_eqb (bar_date b) (bar_date last_bar)) bars in
           In last_bar rows
           /\ format_intraday_data w ticker =
                series_dict ticker "intraday"
                  (map strftime_HM (map bar_ts rows))
                  (map F64.round2 (map bar_close rows))
           /\ SeriesResponse (format_intraday_data w ticker))
  /\ (forall (w : World) (ticker : string),
         format_intraday_data w ticker <> error_dict "No intraday data available")
  /\ (forall (w : World) (ticker : string) (bars : list Bar) (yesterday : date),
         yf_history w ticker "2d" "30m" = Ok (Frame bars) ->
         date_minus_one_day (utc_today w) = Ok yesterday ->
         ErrorOnly (format_intraday_data w ticker) ->
         bars = []).
Proof.
  split; [|split].
  - intros w ticker bars yesterday Hfetch Hne Hy Hnone.
    destruct (exists_last Hne) as (front & last_bar & ->).
    exists last_bar. split.
    { rewrite map_app. cbn [map]. apply List.last_last. }
    cbv zeta.
    assert (Heq := format_intraday_data_frame w ticker _ yesterday Hfetch Hne Hy).
    rewrite (intraday_rows_fallback yesterday front last_bar Hnone) in Heq.
    split; [|split].
    + apply List.filter_In. split; [apply List.in_or_app; right; by left|].
      apply date_eqb_refl.
    + exact Heq.
    + rewrite Heq. apply series_dict_SeriesResponse. by rewrite !length_map.
  - apply format_intraday_data_never_no_intraday.
  - intros w ticker bars yesterday Hfetch Hy Herr.
    destruct bars as [|b bars]; [reflexivity|]. exfalso.
    rewrite (format_intraday_data_frame w ticker (b :: bars) yesterday Hfetch) in Herr;
      [|discriminate|exact Hy].
    eapply SeriesResponse_not_ErrorOnly; [|exact Herr].
    apply series_dict_SeriesResponse. by rewrite !length_map.
Qed.

Lemma format_intraday_data_fallback_witness :
  (yf_history Sample.world "AAPL" "2d" "30m" = Ok (Frame Sample.friday_bars)
   /\ Sample.friday_bars <> []
   /\ date_minus_one_day (utc_today Sample.world) = Ok (Date 2024 6 2)
   /\ Forall (fun b => bar_date b <> Date 2024 6 2) Sample.friday_bars)
  /\ format_intraday_data Sample.world "AAPL" !! "labels"
     = Some (JStrings ["15:00"; "15:30"]).
Proof.
  assert (Hnone : Forall (fun b => bar_date b <> Date 2024 6 2) Sample.friday_bars).
  { repeat constructor; discriminate. }
  split; [repeat split; [discriminate | exact Hnone]|].
  destruct (proj1 format_intraday_data_fallback Sample.world "AAPL"
              Sample.friday_bars (Date 2024 6 2) eq_refl
              ltac:(discriminate) eq_refl Hnone)
    as (last_bar & Hlast & _ & -> & _).
  injection Hlast as <-. vm_compute. reflexivity.
Defined.

(** ** Monthly average *)

(** *** The order of the additions *)

Lemma split_point_bounds (n : nat) :
  DF.block_size < n -> 0 < DF.split_point n < n.
Proof.
  unfold DF.block_size, DF.split_point. intros Hn.
  pose proof (Nat.mod_upper_bound (n / 2) 8 ltac:(lia)) as Hmod.
  pose proof (Nat.div_mod_eq n 2) as Hdiv.
  pose proof (Nat.mod_upper_bound n 2 ltac:(lia)) as Hmod2.
  lia.
Qed.

Lemma pairwise_sum_eq (fuel : nat) (a : list F64.float) :
  DF.pairwise_sum fuel a =
    if (length a <? 8)%nat then DF.sum_few a
    else if (length a <=? DF.block_size)%nat then DF.sum_block a
    else
      match fuel with
      | O => DF.sum_block a
      | S fuel' =>
          F64.add (DF.pairwise_sum fuel' (take (DF.split_point (length a)) a))
                  (DF.pairwise_sum fuel' (drop (DF.split_point (length a)) a))
      end.
Proof. destruct fuel; reflexivity. Qed.

(** The recursion of the pairwise sum ends within [length a] levels: any
    two amounts of fuel that are at least the length give the same sum. *)
Lemma pairwise_sum_fuel (fuel fuel' : nat) (a : list F64.float) :
  length a <= fuel -> length a <= fuel' ->
  DF.pairwise_sum fuel a = DF.pairwise_sum fuel' a.
Proof.
  revert fuel' a. induction fuel as [|fuel IH]; intros fuel' a Hfuel Hfuel';
    rewrite (pairwise_sum_eq _ a), (pairwise_sum_eq fuel' a).
  - destruct a; [reflexivity | cbn [length] in Hfuel; lia].
  - destruct (length a <? 8)%nat; [reflexivity|].
    destruct (length a <=? DF.block_size)%nat eqn:Hblock; [reflexivity|].
    apply Nat.leb_gt in Hblock.
    pose proof (split_point_bounds (length a) Hblock) as Hsplit.
    destruct fuel' as [|fuel']; [unfold DF.block_size in Hblock; lia|].
    f_equal; apply IH; rewrite ?length_take, ?length_drop; lia.
Qed.

(** Up to 7 values the sum is taken from the first value to the last. *)
Lemma sum_few_values (x : F64.float) (rest : list F64.float) :
  length (x :: rest) < 8 ->
  DF.sum (x :: rest) = fold_left F64.add rest (F64.add (S754_zero true) x).
Proof.
  intros Hlen. unfold DF.sum. rewrite pairwise_sum_eq.
  apply Nat.ltb_lt in Hlen. by rewrite Hlen.
Qed.

(** On eight closes the order of the additions shows: the mean in the
    order of [DF.sum] rounds to 514.23, the mean of the values added from
    the first to the last would round to 514.24. *)
Example mean_eight_closes :
  F64.round2 (DF.mean Sample.eight_closes) = F64.of_decimal 51423 2
  /\ F64.round2 (F64.div (fold_left F64.add Sample.eight_closes (S754_zero true))
                   (F64.of_Z 8))
     = F64.of_decimal 51424 2.
Proof. split; vm_compute; reflexivity. Qed.

(** C8, as the specification states it, fails on its own example: for the
    closes 100.004 and 100.006 the binary64 mean lies below 100.005 and
    the reported value is 100.0, which is not the double 100.01. *)
Lemma format_monthly_data_two_closes_counterexample :
  map bar_close Sample.two_closes
    = [F64.of_decimal 100004 3; F64.of_decimal 100006 3]
  /\ get_stock_data Sample.world_two_closes "AAPL" "1mo" "1d"
     = Some (Frame Sample.two_closes)
  /\ format_monthly_data Sample.world_two_closes "AAPL" !! "values"
     = Some (JFloats [F64.of_Z 100])
  /\ format_monthly_data Sample.world_two_closes "AAPL" !! "values"
     <> Some (JFloats [F64.of_decimal 10001 2]).
Proof.
  assert (Hval : format_monthly_data Sample.world_two_closes "AAPL" !! "values"
                 = Some (JFloats [F64.of_Z 100])) by (vm_compute; reflexivity).
  repeat split; try reflexivity; try exact Hval.
  rewrite Hval. vm_compute. discriminate.
Qed.

(** C8, amended. On a daily table with at least one row the result holds
    exactly one label and one value: the value is [round(mean, 2)] of the
    binary64 mean of the closes ([DF.mean]: the closes added up in the
    order of the library's sum and divided by their number), that is the
    two-decimal number nearest to the exact binary value of that mean, and
    the label is the [YYYY-MM] month of the last row. For the closes
    100.004 and 100.006 the mean is the double 7037226261487288 * 2^-46,
    just below 100.005, and the value is 100.0. *)
Theorem format_monthly_data_single_point :
  (forall (w : World) (ticker : string) (bars : list Bar),
      yf_history w ticker "1mo" "1d" = Ok (Frame bars) ->
      bars <> [] ->
      exists last_bar,
        List.last (map Some bars) None = Some last_bar
        /\ format_monthly_data w ticker =
             series_dict ticker "monthly"
               [strftime_Ym (bar_date last_bar)]
               [F64.round2 (DF.mean (map bar_close bars))]
        /\ format_monthly_data w ticker !! "count" = Some (JInt 1))
  /\ DF.mean [F64.of_decimal 100004 3; F64.of_decimal 100006 3]
     = S754_finite false 7037226261487288 (-46)
  /\ F64.round2 (DF.mean [F64.of_decimal 100004 3; F64.of_decimal 100006 3])
     = F64.of_Z 100.
Proof.
  split; [|split; vm_compute; reflexivity].
  intros w ticker bars Hfetch Hne.
  destruct (exists_last Hne) as (front & last_bar & ->).
  exists last_bar. split.
  { rewrite map_app. cbn [map]. apply List.last_last. }
  rewrite (format_monthly_data_frame w ticker front last_bar Hfetch).
  split; reflexivity.
Qed.

Lemma format_monthly_data_single_point_witness :
  (yf_history Sample.world "AAPL" "1mo" "1d" = Ok (Frame Sample.daily_bars)
   /\ Sample.daily_bars <> [])
  /\ format_monthly_data Sample.world "AAPL" !! "labels" = Some (JStrings ["2024-06"])
  /\ format_monthly_data Sample.world "AAPL" !! "values"
     = Some (JFloats [F64.of_decimal 10050 2]).
Proof.
  split; [split; [reflexivity | discriminate]|].
  destruct (proj1 format_monthly_data_single_point Sample.world "AAPL"
              Sample.daily_bars eq_refl ltac:(discriminate))
    as (last_bar & Hlast & -> & _).
  injection Hlast as <-. split; vm_compute; reflexivity.
Defined.

(** ** Errors of the formatters *)

(** The three series routes always answer with status 200. *)
Lemma series_routes_status (w : World) (ticker : string) :
  snd (get_daily w ticker) = 200
  /\ snd (get_monthly w ticker) = 200
  /\ snd (get_intraday w ticker) = 200.
Proof. repeat split. Qed.

Lemma get_stock_data_swallows (w : World) (ticker period interval : string) (e : exn) :
  yf_history w ticker period interval = Raise e ->
  get_stock_data w ticker period interval = None.
Proof. unfold get_stock_data. by intros ->. Qed.

Lemma format_daily_data_no_data (w : World) (ticker : string) :
  no_data (get_stock_data w ticker "1mo" "1d") ->
  format_daily_data w ticker = error_dict "No data available".
Proof.
  unfold format_daily_data, format_daily_data_try, no_data.
  destruct (get_stock_data w ticker "1mo" "1d"); [intros ->|]; reflexivity.
Qed.

Lemma format_intraday_data_no_data (w : World) (ticker : string) :
  no_data (get_stock_data w ticker "2d" "30m") ->
  format_intraday_data w ticker = error_dict "No data available".
Proof.
  unfold format_intraday_data, format_intraday_data_try, no_data.
  destruct (get_stock_data w ticker "2d" "30m"); [intros ->|]; reflexivity.
Qed.

Lemma format_monthly_data_no_data (w : World) (ticker : string) :
  no_data (get_stock_data w ticker "1mo" "1d") ->
  format_monthly_data w ticker = error_dict "No data available".
Proof.
  unfold format_monthly_data, format_monthly_data_try, no_data.
  destruct (get_stock_data w ticker "1mo" "1d"); [intros ->|]; reflexivity.
Qed.

(** C9. A formatter always returns an object. When the provider raises
    during the fetch, the adapter swallows the exception and the formatter
    returns [{error: "No data available"}]; when a step of the
    transformation raises [e], the formatter returns [{error: str(e)}]. In
    both cases the result holds the error string and nothing else. *)
Theorem formatters_never_raise (w : World) (ticker : string) :
  (forall e, yf_history w ticker "1mo" "1d" = Raise e ->
             format_daily_data w ticker = error_dict "No data available"
             /\ format_monthly_data w ticker = error_dict "No data available")
  /\ (forall e, yf_history w ticker "2d" "30m" = Raise e ->
                format_intraday_data w ticker = error_dict "No data available")
  /\ (forall e, format_daily_data_try w ticker = Raise e ->
                format_daily_data w ticker = error_dict (exn_str e))
  /\ (forall e, format_intraday_data_try w ticker = Raise e ->
                format_intraday_data w ticker = error_dict (exn_str e))
  /\ (forall e, format_monthly_data_try w ticker = Raise e ->
                format_monthly_data w ticker = error_dict (exn_str e))
  /\ well_shaped (format_daily_data w ticker)
  /\ well_shaped (format_intraday_data w ticker)
  /\ well_shaped (format_monthly_data w ticker).
Proof.
  split; [|split; [|split; [|split; [|split; [|split; [|split]]]]]].
  - intros e He. apply get_stock_data_swallows in He. split.
    + apply format_daily_data_no_data. by rewrite He.
    + apply format_monthly_data_no_data. by rewrite He.
  - intros e He. apply get_stock_data_swallows in He.
    apply format_intraday_data_no_data. by rewrite He.
  - intros e He. unfold format_daily_data. by rewrite He.
  - intros e He. unfold format_intraday_data. by rewrite He.
  - intros e He. unfold format_monthly_data. by rewrite He.
  - apply format_daily_data_shape.
  - apply format_intraday_data_shape.
  - apply format_monthly_data_shape.
Qed.

Lemma formatters_never_raise_witness :
  (yf_history Sample.world_offline "AAPL" "1mo" "1d" = Raise Sample.connection_error
   /\ format_daily_data Sample.world_offline "AAPL" = error_dict "No data available")
  /\ (yf_history Sample.world_offline "AAPL" "2d" "30m" = Raise Sample.connection_error
      /\ format_intraday_data Sample.world_offline "AAPL" = error_dict "No data available")
  /\ (format_daily_data_try Sample.world_no_close "AAPL"
        = Raise (Exception "KeyError" "'Close'")
      /\ format_daily_data Sample.world_no_close "AAPL" = error_dict "'Close'")
  /\ (format_intraday_data_try Sample.world_no_close "AAPL"
        = Raise (Exception "KeyError" "'Close'")
      /\ format_intraday_data Sample.world_no_close "AAPL" = error_dict "'Close'")
  /\ (format_monthly_data_try Sample.world_no_close "AAPL"
        = Raise (Exception "KeyError" "'Close'")
      /\ format_monthly_data Sample.world_no_close "AAPL" = error_dict "'Close'").
Proof.
  pose proof (formatters_never_raise Sample.world_offline "AAPL")
    as (Hfetch & Hfetch' & _).
  pose proof (formatters_never_raise Sample.world_no_close "AAPL")
    as (_ & _ & Hd & Hi & Hm & _).
  split; [|split; [|split; [|split]]]; (split; [reflexivity|]).
  - exact (proj1 (Hfetch _ eq_refl)).
  - exact (Hfetch' _ eq_refl).
  - exact (Hd _ eq_refl).
  - exact (Hi _ eq_refl).
  - exact (Hm _ eq_refl).
Defined.

(** C10, as the specification states it, fails for the intraday
    formatter: on a table with rows none of which is dated yesterday the
    date filter leaves nothing, yet the formatter falls back to the day of
    the last row and answers with a series, not with the error "No
    intraday data available". *)
Lemma intraday_empty_filter_counterexample :
  get_stock_data Sample.world "AAPL" "2d" "30m" = Some (Frame Sample.friday_bars)
  /\ Sample.friday_bars <> []
  /\ date_minus_one_day (utc_today Sample.world) = Ok (Date 2024 6 2)
  /\ DF.empty (DF.select (fun ts => date_eqb (ts_date ts) (Date 2024 6 2))
                 (Frame Sample.friday_bars)) = true
  /\ format_intraday_data Sample.world "AAPL" <> error_dict "No intraday data available"
  /\ format_intraday_data Sample.world "AAPL" !! "error" = None
  /\ format_intraday_data Sample.world "AAPL" !! "labels"
     = Some (JStrings ["15:00"; "15:30"]).
Proof.
  split; [reflexivity|]. split; [discriminate|]. split; [reflexivity|].
  split; [reflexivity|]. split; [apply format_intraday_data_never_no_intraday|].
  split; vm_compute; reflexivity.
Qed.

(** C10, amended. With rows in the table but none left by the date filter,
    the daily formatter answers "No historical data before today", a text
    that differs from the "No data available" of the case without data,
    and both answers are objects holding the error string and nothing
    else. The intraday formatter has no such error: when no row is dated
    yesterday it answers with the series of the last row's day, and the
    text "No intraday data available" is never returned; without data it
    answers "No data available" like the daily one. *)
Theorem empty_after_filter_message_distinct :
  (forall (w : World) (ticker : string) (bars : list Bar),
      yf_history w ticker "1mo" "1d" = Ok (Frame bars) ->
      bars <> [] ->
      daily_filtered w bars = [] ->
      format_daily_data w ticker = error_dict "No historical data before today")
  /\ (forall (w : World) (ticker : string) (bars : list Bar) (yesterday : date),
         yf_history w ticker "2d" "30m" = Ok (Frame bars) ->
         bars <> [] ->
         date_minus_one_day (utc_today w) = Ok yesterday ->
         Forall (fun b => bar_date b <> yesterday) bars ->
         SeriesResponse (format_intraday_data w ticker)
         /\ ~ ErrorOnly (format_intraday_data w ticker))
  /\ (forall (w : World) (ticker : string),
         format_intraday_data w ticker <> error_dict "No intraday data available")
  /\ (forall (w : World) (ticker : string),
         no_data (get_stock_data w ticker "1mo" "1d") ->
         format_daily_data w ticker = error_dict "No data available")
  /\ (forall (w : World) (ticker : string),
         no_data (get_stock_data w ticker "2d" "30m") ->
         format_intraday_data w ticker = error_dict "No data available")
  /\ error_dict "No historical data before today" <> error_dict "No data available"
  /\ ErrorOnly (error_dict "No historical data before today")
  /\ ErrorOnly (error_dict "No data available").
Proof.
  split; [|split; [|split; [|split; [|split; [|split; [|split]]]]]].
  - intros w ticker bars Hfetch Hne Hnone.
    rewrite (format_daily_data_frame w ticker bars Hfetch).
    destruct bars as [|b bars]; [congruence|]. by rewrite Hnone.
  - intros w ticker bars yesterday Hfetch Hne Hy _.
    assert (Hseries : SeriesResponse (format_intraday_data w ticker)).
    { rewrite (format_intraday_data_frame w ticker bars yesterday Hfetch Hne Hy).
      apply series_dict_SeriesResponse. by rewrite !length_map. }
    split; [exact Hseries|].
    intros Herr. exact (SeriesResponse_not_ErrorOnly _ Hseries Herr).
  - apply format_intraday_data_never_no_intraday.
  - apply format_daily_data_no_data.
  - apply format_intraday_data_no_data.
  - intros H. apply error_dict_inj in H. discriminate.
  - apply error_dict_ErrorOnly.
  - apply error_dict_ErrorOnly.
Qed.

Lemma empty_after_filter_message_distinct_witness :
  ((yf_history Sample.world_only_today "AAPL" "1mo" "1d"
      = Ok (Frame [Sample.daily_bar 2024 6 3 101500])
    /\ [Sample.daily_bar 2024 6 3 101500] <> []
    /\ daily_filtered Sample.world_only_today [Sample.daily_bar 2024 6 3 101500] = [])
   /\ format_daily_data Sample.world_only_today "AAPL"
      = error_dict "No historical data before today")
  /\ ((yf_history Sample.world "AAPL" "2d" "30m" = Ok (Frame Sample.friday_bars)
       /\ Sample.friday_bars <> []
       /\ date_minus_one_day (utc_today Sample.world) = Ok (Date 2024 6 2)
       /\ Forall (fun b => bar_date b <> Date 2024 6 2) Sample.friday_bars)
      /\ SeriesResponse (format_intraday_data Sample.world "AAPL"))
  /\ (no_data (get_stock_data Sample.world_no_rows "AAPL" "1mo" "1d")
      /\ format_daily_data Sample.world_no_rows "AAPL" = error_dict "No data available")
  /\ (no_data (get_stock_data Sample.world_offline "AAPL" "2d" "30m")
      /\ format_intraday_data Sample.world_offline "AAPL" = error_dict "No data available").
Proof.
  pose proof empty_after_filter_message_distinct as (Hd & Hi & _ & Hnd & Hni & _).
  assert (Hnone : Forall (fun b => bar_date b <> Date 2024 6 2) Sample.friday_bars).
  { repeat constructor; discriminate. }
  split; [|split; [|split]].
  - split; [repeat split; discriminate|].
    apply (Hd Sample.world_only_today "AAPL" [Sample.daily_bar 2024 6 3 101500]);
      [reflexivity | discriminate | reflexivity].
  - split; [split; [reflexivity | split; [discriminate | split; [reflexivity | exact Hnone]]]|].
    apply (Hi Sample.world "AAPL" Sample.friday_bars (Date 2024 6 2));
      [reflexivity | discriminate | reflexivity | exact Hnone].
  - split; [reflexivity|]. apply (Hnd Sample.world_no_rows "AAPL"). reflexivity.
  - split; [exact I|]. apply (Hni Sample.world_offline "AAPL"). exact I.
Defined.

(** ** Decision service *)

Lemma snd_ebind {A B : Type} (m : Eff A) (k : A -> Eff B) :
  snd (ebind m k) = rbind (snd m) (fun a => snd (k a)).
Proof. destruct m as [calls [a|e]]; cbn; [by destruct (k a) | reflexivity]. Qed.

Lemma fst_ebind {A B : Type} (m : Eff A) (k : A -> Eff B) :
  fst (ebind m k) =
    (fst m ++ match snd m with Ok a => fst (k a) | Raise _ => [] end)%list.
Proof.
  destruct m as [calls [a|e]]; cbn; [by destruct (k a)|].
  by rewrite app_nil_r.
Qed.

Lemma load_name_Some (g : namespace) (x : string) (v : pyobj) :
  g !! x = Some v -> load_name g x = Ok v.
Proof. unfold load_name. by intros ->. Qed.

Lemma load_name_None (g : namespace) (x : string) :
  g !! x = None ->
  load_name g x = Raise (Exception "NameError" ("name '" ++ x ++ "' is not defined")).
Proof. unfold load_name. by intros ->. Qed.

(** One step of a [try] block on both sides of an equation: the same
    computation is run first, and when it raises both sides raise. *)
Ltac same_step :=
  rewrite snd_ebind; cbn [local outbound snd];
  match goal with
  | |- rbind ?m _ = rbind ?m _ => destruct m; cbn [rbind]; [|reflexivity]
  end.

Section TryBlock.

Context (g : namespace) (w : World) (ticker : string).

(** What the [try] block of [get_decision] comes to once the credential is
    configured. *)
Lemma get_decision_try_configured (key : pyobj) :
  g !! "GEMINI_API_KEY" = Some key ->
  truthy key = true ->
  snd (get_decision_try g w ticker) =
    (let! hist := yf_history w ticker "5d" "1d" in
     let! info := yf_info w ticker in
     if DF.empty hist then Ok (error_dict "No data available", 400)
     else
       let! closes := DF.Close hist in
       let! genai := load_name g "genai" in
       let! model := GenerativeModel genai "gemini-pro" in
       let! text := model (decision_prompt ticker info closes) in
       Ok (decision_dict ticker (fst (parse_reply text)) (snd (parse_reply text)), 200)).
Proof.
  intros Hkey Hconf. unfold get_decision_try.
  rewrite snd_ebind. cbn [local snd]. rewrite (load_name_Some g _ key Hkey).
  cbn [rbind]. rewrite Hconf. cbn [negb].
  do 2 same_step.
  match goal with |- context [DF.empty ?hist] => destruct (DF.empty hist) end;
    [reflexivity|].
  do 3 same_step.
  rewrite snd_ebind. cbn [outbound snd]. unfold decision_prompt. cbv zeta.
  match goal with
  | |- rbind ?m _ = rbind ?m _ => destruct m as [text|e]; cbn [rbind]; [|reflexivity]
  end.
  by destruct (parse_reply text).
Qed.

(** The [try] block raises exactly when one of its steps does. *)
Lemma decision_failure_raises (key : pyobj) (e : exn) :
  g !! "GEMINI_API_KEY" = Some key ->
  truthy key = true ->
  decision_failure g w ticker e <-> snd (get_decision_try g w ticker) = Raise e.
Proof.
  intros Hkey Hconf. rewrite (get_decision_try_configured key Hkey Hconf).
  split.
  - intros Hfail.
    destruct Hfail as [e H1|hist e H1 H2|hist info e H1 H2 H3 H4
                      |hist info closes e H1 H2 H3 H4 H5
                      |hist info closes genai e H1 H2 H3 H4 H5 H6
                      |hist info closes genai model e H1 H2 H3 H4 H5 H6 H7];
      rewrite H1; cbn [rbind]; try reflexivity;
      rewrite H2; cbn [rbind]; try reflexivity;
      rewrite H3, H4; cbn [rbind]; try reflexivity;
      rewrite H5; cbn [rbind]; try reflexivity;
      rewrite H6; cbn [rbind]; try reflexivity;
      rewrite H7; reflexivity.
  - destruct (yf_history w ticker "5d" "1d") as [hist|e1] eqn:H1; cbn [rbind].
    2: { intros [= <-]. by apply fail_history. }
    destruct (yf_info w ticker) as [info|e2] eqn:H2; cbn [rbind].
    2: { intros [= <-]. by eapply fail_info. }
    destruct (DF.empty hist) eqn:H3; [discriminate|].
    destruct (DF.Close hist) as [closes|e4] eqn:H4; cbn [rbind].
    2: { intros [= <-]. by eapply fail_close. }
    destruct (load_name g "genai") as [genai|e5] eqn:H5; cbn [rbind].
    2: { intros [= <-]. by eapply fail_genai. }
    destruct (GenerativeModel genai "gemini-pro") as [model|e6] eqn:H6; cbn [rbind].
    2: { intros [= <-]. by eapply fail_model. }
    destruct (model (decision_prompt ticker info closes)) as [text|e7] eqn:H7;
      cbn [rbind]; [discriminate|].
    intros [= <-]. by eapply fail_generate.
Qed.

(** With [genai] unbound the block never gets to the request to the
    model. *)
Lemma get_decision_try_unbound_calls (prompt : string) :
  g !! "genai" = None ->
  ~ In (CallGenerate prompt) (fst (get_decision_try g w ticker)).
Proof.
  intros Hgenai. unfold get_decision_try.
  rewrite fst_ebind. cbn [local fst snd app].
  destruct (load_name g "GEMINI_API_KEY") as [key|e]; [|by intros []].
  destruct (truthy key); cbn [negb]; [|by intros []].
  rewrite fst_ebind. cbn [outbound fst snd].
  destruct (yf_history w _ "5d" "1d") as [hist|e].
  2: { cbn. intros [H|[]]. discriminate. }
  rewrite fst_ebind. cbn [outbound fst snd].
  destruct (yf_info w _) as [info|e].
  2: { cbn. intros [H|[H|[]]]; discriminate. }
  destruct (DF.empty hist).
  { cbn. intros [H|[H|[]]]; discriminate. }
  rewrite fst_ebind. cbn [local fst snd].
  destruct (DF.Close hist) as [closes|e].
  2: { cbn. intros [H|[H|[]]]; discriminate. }
  rewrite fst_ebind. cbn [local fst snd].
  rewrite (load_name_None g "genai" Hgenai).
  cbn. intros [H|[H|[]]]; discriminate.
Qed.

End TryBlock.

Lemma get_decision_snd (g : namespace) (w : World) (ticker : string) :
  snd (get_decision g w ticker) =
    match snd (get_decision_try g w (Str.upper ticker)) with
    | Ok r => r
    | Raise e => hold_on_error (Str.upper ticker) e
    end.
Proof.
  unfold get_decision.
  by destruct (get_decision_try g w (Str.upper ticker)) as [calls [r|e]].
Qed.

Lemma get_decision_fst (g : namespace) (w : World) (ticker : string) :
  fst (get_decision g w ticker) = fst (get_decision_try g w (Str.upper ticker)).
Proof.
  unfold get_decision.
  by destruct (get_decision_try g w (Str.upper ticker)) as [calls [r|e]].
Qed.

Lemma take_length (n : nat) (s : string) : String.length (Str.take n s) <= n.
Proof.
  revert s. induction n as [|n IH]; intros [|c s]; cbn; try lia.
  specialize (IH s). lia.
Qed.

Lemma take_prefix (n : nat) (s : string) : String.prefix (Str.take n s) s = true.
Proof.
  revert s. induction n as [|n IH]; intros [|c s]; cbn; try reflexivity.
  destruct (ascii_dec c c); [apply IH | congruence].
Qed.

(** C2. With the credential configured, the exceptions that the [try]
    block of [get_decision] raises are exactly those raised by one of its
    steps (a request to the provider, the column lookup, the lookup or the
    construction of the model, the request to the model); and whichever
    exception [e] the block raises, the handler answers with status 200,
    the upper-cased ticker, the action HOLD and the reason "Error during
    analysis: " followed by the first 50 characters of [str(e)] at most. *)
Theorem get_decision_fails_open :
  (forall (g : namespace) (w : World) (ticker : string) (key : pyobj) (e : exn),
      g !! "GEMINI_API_KEY" = Some key ->
      truthy key = true ->
      decision_failure g w (Str.upper ticker) e ->
      snd (get_decision g w ticker) =
        (decision_dict (Str.upper ticker) "HOLD"
           ("Error during analysis: " ++ Str.take 50 (exn_str e)), 200)
      /\ String.length (Str.take 50 (exn_str e)) <= 50
      /\ String.prefix (Str.take 50 (exn_str e)) (exn_str e) = true)
  /\ (forall (g : namespace) (w : World) (ticker : string) (key : pyobj) (e : exn),
         g !! "GEMINI_API_KEY" = Some key ->
         truthy key = true ->
         snd (get_decision_try g w (Str.upper ticker)) = Raise e ->
         decision_failure g w (Str.upper ticker) e).
Proof.
  split.
  - intros g w ticker key e Hkey Hconf Hfail.
    apply (decision_failure_raises g w _ key e Hkey Hconf) in Hfail.
    split; [|split].
    + rewrite get_decision_snd, Hfail. reflexivity.
    + apply take_length.
    + apply take_prefix.
  - intros g w ticker key e Hkey Hconf Hraise.
    by apply (decision_failure_raises g w _ key e Hkey Hconf).
Qed.

Lemma get_decision_fails_open_witness :
  (Sample.configured !! "GEMINI_API_KEY" = Some (PyStr "secret")
   /\ truthy (PyStr "secret") = true
   /\ decision_failure Sample.configured Sample.world_offline (Str.upper "aapl")
        Sample.connection_error)
  /\ snd (get_decision Sample.configured Sample.world_offline "aapl") =
       (decision_dict "AAPL" "HOLD"
          "Error during analysis: HTTPSConnectionPool(host='query2.finance.yahoo.com", 200).
Proof.
  assert (Hfail : decision_failure Sample.configured Sample.world_offline
                    (Str.upper "aapl") Sample.connection_error)
    by (by apply fail_history).
  split; [split; [reflexivity | split; [reflexivity | exact Hfail]]|].
  exact (proj1 (proj1 get_decision_fails_open Sample.configured Sample.world_offline
                  "aapl" (PyStr "secret") Sample.connection_error
                  eq_refl eq_refl Hfail)).
Defined.

(** ** The credential and the text-generation module *)

Lemma module_init_cases (environ : gmap string string) :
  match default "" (environ !! "GEMINI_API_KEY") with
  | EmptyString =>
      exists g, module_init environ = Ok g
                /\ g !! "genai" = None
                /\ g !! "GEMINI_API_KEY" = Some (PyStr "")
  | String _ _ => module_init environ = Raise genai_name_error
  end.
Proof.
  unfold module_init.
  destruct (default "" (environ !! "GEMINI_API_KEY")) as [|c key].
  - eexists. split; [reflexivity|]. split; reflexivity.
  - reflexivity.
Qed.

Lemma module_init_unbound (environ : gmap string string) (g : namespace) :
  module_init environ = Ok g ->
  g !! "genai" = None /\ g !! "GEMINI_API_KEY" = Some (PyStr "").
Proof.
  intros Hinit. pose proof (module_init_cases environ) as Hcases.
  destruct (default "" (environ !! "GEMINI_API_KEY")).
  - destruct Hcases as (g' & Hg' & Hgenai & Hkey).
    rewrite Hinit in Hg'. injection Hg' as <-. by split.
  - rewrite Hinit in Hcases. discriminate.
Qed.

Lemma decision_dict_action (ticker action reason : string) :
  decision_dict ticker action reason !! "action" = Some (JString action).
Proof. reflexivity. Qed.

Lemma error_dict_action (msg : string) : error_dict msg !! "action" = None.
Proof. reflexivity. Qed.

(** With [genai] unbound, the configured path ends in the no-data answer or
    in the fail-open answer. *)
Lemma get_decision_unbound_cases
    (g : namespace) (w : World) (ticker : string) :
  g !! "genai" = None ->
  snd (get_decision g w ticker) = (error_dict "No data available", 400)
  \/ exists reason,
       snd (get_decision g w ticker) =
         (decision_dict (Str.upper ticker) "HOLD" reason, 200).
Proof.
  intros Hgenai. rewrite get_decision_snd.
  destruct (g !! "GEMINI_API_KEY") as [key|] eqn:Hkey.
  - destruct (truthy key) eqn:Hconf.
    + rewrite (get_decision_try_configured g w _ key Hkey Hconf).
      rewrite (load_name_None g "genai" Hgenai).
      destruct (yf_history w _ "5d" "1d") as [hist|e]; cbn [rbind];
        [|right; eexists; reflexivity].
      destruct (yf_info w _) as [info|e]; cbn [rbind];
        [|right; eexists; reflexivity].
      destruct (DF.empty hist); [by left|].
      destruct (DF.Close hist) as [closes|e]; cbn [rbind];
        right; eexists; reflexivity.
    + unfold get_decision_try. rewrite (load_name_Some g _ key Hkey).
      cbn [local ebind]. rewrite Hconf. right. eexists. reflexivity.
  - unfold get_decision_try. rewrite (load_name_None g _ Hkey).
    right. eexists. reflexivity.
Qed.

Lemma get_decision_unbound_calls
    (g : namespace) (w : World) (ticker : string) (prompt : string) :
  g !! "genai" = None ->
  ~ In (CallGenerate prompt) (fst (get_decision g w ticker)).
Proof.
  intros Hgenai. rewrite get_decision_fst.
  by apply get_decision_try_unbound_calls.
Qed.

Lemma get_decision_reaches_model
    (g : namespace) (w : World) (ticker : string) (key : pyobj)
    (hist : DataFrame) (info : gmap string string) (closes : list F64.float) :
  g !! "GEMINI_API_KEY" = Some key ->
  truthy key = true ->
  yf_history w (Str.upper ticker) "5d" "1d" = Ok hist ->
  yf_info w (Str.upper ticker) = Ok info ->
  DF.empty hist = false ->
  DF.Close hist = Ok closes ->
  g !! "genai" = None ->
  get_decision g w ticker =
    ([CallHistory (Str.upper ticker) "5d" "1d"; CallInfo (Str.upper ticker)],
     (decision_dict (Str.upper ticker) "HOLD"
        "Error during analysis: name 'genai' is not defined", 200)).
Proof.
  intros Hkey Hconf Hhist Hinfo Hrows Hclose Hgenai.
  unfold get_decision, get_decision_try.
  rewrite (load_name_Some g _ key Hkey). cbn [local ebind]. rewrite Hconf. cbn [negb].
  rewrite Hhist. cbn [outbound ebind]. rewrite Hinfo, Hrows. cbn [outbound ebind local].
  rewrite Hclose. cbn [ebind]. rewrite (load_name_None g "genai" Hgenai).
  reflexivity.
Qed.

(** C3. No statement of the module binds [genai]: a load with a non-empty
    [GEMINI_API_KEY] stops with the [NameError] of [genai.configure], and a
    namespace produced by a load has [genai] unbound. With [genai] unbound,
    a call of [get_decision] that gets as far as the model ends in the
    fail-open HOLD answer of that [NameError], after the two requests to
    the provider; no call ever reaches the text-generation API and no
    answer carries the action BUY or SELL. *)
Theorem genai_is_never_bound :
  (forall (environ : gmap string string) (g : namespace),
      module_init environ = Ok g -> g !! "genai" = None)
  /\ (forall (environ : gmap string string) (key : string),
         environ !! "GEMINI_API_KEY" = Some key ->
         key <> "" ->
         module_init environ = Raise genai_name_error)
  /\ (forall (g : namespace) (w : World) (ticker : string) (key : pyobj)
             (hist : DataFrame) (info : gmap string string) (closes : list F64.float),
         g !! "genai" = None ->
         g !! "GEMINI_API_KEY" = Some key ->
         truthy key = true ->
         yf_history w (Str.upper ticker) "5d" "1d" = Ok hist ->
         yf_info w (Str.upper ticker) = Ok info ->
         DF.empty hist = false ->
         DF.Close hist = Ok closes ->
         get_decision g w ticker =
           ([CallHistory (Str.upper ticker) "5d" "1d"; CallInfo (Str.upper ticker)],
            (decision_dict (Str.upper ticker) "HOLD"
               ("Error during analysis: " ++ exn_str genai_name_error), 200)))
  /\ (forall (g : namespace) (w : World) (ticker : string),
         g !! "genai" = None ->
         (forall prompt, ~ In (CallGenerate prompt) (fst (get_decision g w ticker)))
         /\ action_of (snd (get_decision g w ticker)) <> Some (JString "BUY")
         /\ action_of (snd (get_decision g w ticker)) <> Some (JString "SELL")).
Proof.
  split; [|split; [|split]].
  - intros environ g Hinit. by apply (module_init_unbound environ g).
  - intros environ key Hkey Hne. pose proof (module_init_cases environ) as Hcases.
    rewrite Hkey in Hcases. cbn [default] in Hcases.
    destruct key; [congruence | exact Hcases].
  - intros g w ticker key hist info closes Hgenai Hkey Hconf Hhist Hinfo Hrows Hclose.
    by apply (get_decision_reaches_model g w ticker key hist info closes).
  - intros g w ticker Hgenai. split.
    { intros prompt. by apply get_decision_unbound_calls. }
    unfold action_of.
    destruct (get_decision_unbound_cases g w ticker Hgenai) as [->|[reason ->]];
      cbn [fst]; rewrite ?error_dict_action, ?decision_dict_action;
      split; discriminate.
Qed.

Lemma genai_is_never_bound_witness :
  (module_init ∅ = Ok Sample.loaded /\ Sample.loaded !! "genai" = None)
  /\ (({[ "GEMINI_API_KEY" := "secret" ]} : gmap string string) !! "GEMINI_API_KEY"
        = Some "secret"
      /\ "secret" <> ""
      /\ module_init {[ "GEMINI_API_KEY" := "secret" ]} = Raise genai_name_error)
  /\ (Sample.configured !! "genai" = None
      /\ get_decision Sample.configured Sample.world "aapl" =
           ([CallHistory "AAPL" "5d" "1d"; CallInfo "AAPL"],
            (decision_dict "AAPL" "HOLD"
               "Error during analysis: name 'genai' is not defined", 200)))
  /\ action_of (snd (get_decision Sample.configured Sample.world "aapl"))
     <> Some (JString "BUY").
Proof.
  pose proof genai_is_never_bound as (Hload & Hinit & Hreach & Hnever).
  split; [|split; [|split]].
  - split; [reflexivity|]. apply (Hload ∅ Sample.loaded). reflexivity.
  - split; [reflexivity|]. split; [discriminate|].
    apply (Hinit {[ "GEMINI_API_KEY" := "secret" ]} "secret");
      [reflexivity | discriminate].
  - split; [reflexivity|].
    apply (Hreach Sample.configured Sample.world "aapl" (PyStr "secret")
             (Frame Sample.daily_bars) ∅ (map bar_close Sample.daily_bars));
      reflexivity.
  - apply (Hnever Sample.configured Sample.world "aapl"). reflexivity.
Defined.

(** C4. With an empty [GEMINI_API_KEY], [get_decision] answers with status
    200, the upper-cased ticker, the action HOLD and the fixed reason, and
    makes no outbound call; a load in an environment whose
    [GEMINI_API_KEY] is unset or empty yields such a namespace. *)
Theorem get_decision_without_key :
  (forall (g : namespace) (w : World) (ticker : string),
      g !! "GEMINI_API_KEY" = Some (PyStr "") ->
      get_decision g w ticker =
        ([], (decision_dict (Str.upper ticker) "HOLD"
                "No Gemini API key configured. Using default HOLD action.", 200)))
  /\ (forall (environ : gmap string string),
         default "" (environ !! "GEMINI_API_KEY") = "" ->
         exists g, module_init environ = Ok g
                   /\ g !! "GEMINI_API_KEY" = Some (PyStr "")).
Proof.
  split.
  - intros g w ticker Hkey. unfold get_decision, get_decision_try.
    rewrite (load_name_Some g _ _ Hkey). reflexivity.
  - intros environ Hempty. pose proof (module_init_cases environ) as Hcases.
    rewrite Hempty in Hcases. destruct Hcases as (g & Hinit & _ & Hkey). eauto.
Qed.

Lemma get_decision_without_key_witness :
  (Sample.loaded !! "GEMINI_API_KEY" = Some (PyStr "")
   /\ get_decision Sample.loaded Sample.world "aapl" =
        ([], (decision_dict "AAPL" "HOLD"
                "No Gemini API key configured. Using default HOLD action.", 200)))
  /\ (default "" ((∅ : gmap string string) !! "GEMINI_API_KEY") = ""
      /\ module_init ∅ = Ok Sample.loaded).
Proof.
  split.
  - split; [reflexivity|].
    apply (proj1 get_decision_without_key Sample.loaded Sample.world "aapl").
    reflexivity.
  - assert (Hunset : default "" ((∅ : gmap string string) !! "GEMINI_API_KEY") = "")
      by reflexivity.
    split; [exact Hunset|].
    destruct (proj2 get_decision_without_key ∅ Hunset) as (g & Hinit & _).
    reflexivity.
Defined.

(** ** Parsing the reply of the model *)

Lemma is_valid_action_In (action : string) :
  is_valid_action action = true <-> In action valid_actions.
Proof.
  unfold is_valid_action. rewrite existsb_exists. split.
  - intros (a & Hin & Heq). apply String.eqb_eq in Heq. by subst a.
  - intros Hin. exists action. split; [exact Hin | apply String.eqb_refl].
Qed.

Lemma parse_reply_action (text : string) :
  fst (parse_reply text) =
    if is_valid_action (action_candidate text) then action_candidate text else "HOLD".
Proof.
  unfold parse_reply. fold (action_candidate text).
  by destruct (is_valid_action (action_candidate text)).
Qed.

Lemma parse_reply_valid (text : string) : In (fst (parse_reply text)) valid_actions.
Proof.
  rewrite parse_reply_action.
  destruct (is_valid_action (action_candidate text)) eqn:Hvalid.
  - by apply is_valid_action_In.
  - cbn. tauto.
Qed.

Lemma hold_valid : In "HOLD" valid_actions.
Proof. cbn. tauto. Qed.

(** Every answer of [get_decision] is a decision with one of the three
    actions, or the no-data answer with status 400. *)
Lemma get_decision_response_cases (g : namespace) (w : World) (ticker : string) :
  snd (get_decision g w ticker) = (error_dict "No data available", 400)
  \/ exists action reason,
       snd (get_decision g w ticker) =
         (decision_dict (Str.upper ticker) action reason, 200)
       /\ In action valid_actions.
Proof.
  rewrite get_decision_snd.
  assert (Hhold : forall e,
             exists action reason,
               hold_on_error (Str.upper ticker) e =
                 (decision_dict (Str.upper ticker) action reason, 200)
               /\ In action valid_actions).
  { intros e. eexists _, _. split; [reflexivity | apply hold_valid]. }
  destruct (g !! "GEMINI_API_KEY") as [key|] eqn:Hkey.
  - destruct (truthy key) eqn:Hconf.
    + rewrite (get_decision_try_configured g w _ key Hkey Hconf).
      destruct (yf_history w _ "5d" "1d") as [hist|e]; cbn [rbind]; [|right; apply Hhold].
      destruct (yf_info w _) as [info|e]; cbn [rbind]; [|right; apply Hhold].
      destruct (DF.empty hist); [by left|].
      destruct (DF.Close hist) as [closes|e]; cbn [rbind]; [|right; apply Hhold].
      destruct (load_name g "genai") as [genai|e]; cbn [rbind]; [|right; apply Hhold].
      destruct (GenerativeModel genai "gemini-pro") as [model|e]; cbn [rbind];
        [|right; apply Hhold].
      destruct (model _) as [text|e]; cbn [rbind]; [|right; apply Hhold].
      right. eexists _, _. split; [reflexivity | apply parse_reply_valid].
    + unfold get_decision_try. rewrite (load_name_Some g _ key Hkey).
      cbn [local ebind]. rewrite Hconf.
      right. eexists _, _. split; [reflexivity | apply hold_valid].
  - unfold get_decision_try. rewrite (load_name_None g _ Hkey). right. apply Hhold.
Qed.

(** *** The first line of a reply *)

Lemma first_line_cons (c : ascii) (s : string) :
  first_line (String c s) =
    if Ascii.eqb c (ascii_of_nat 10) then EmptyString else String c (first_line s).
Proof.
  unfold first_line. cbn [Str.split_lines].
  destruct (Ascii.eqb c (ascii_of_nat 10)); [reflexivity|].
  by destruct (Str.split_lines s).
Qed.

Lemma newline_is_space (c : ascii) :
  Ascii.eqb c (ascii_of_nat 10) = true -> Str.is_space c = true.
Proof. intros Heq. apply Ascii.eqb_eq in Heq. by subst c. Qed.

Lemma rstrip_cons (c : ascii) (s : string) :
  Str.rstrip (String c s) =
    match Str.rstrip s with
    | EmptyString => if Str.is_space c then EmptyString else String c EmptyString
    | r => String c r
    end.
Proof. reflexivity. Qed.

Lemma lstrip_head (s : string) :
  match Str.lstrip s with
  | EmptyString => True
  | String c _ => Str.is_space c = false
  end.
Proof.
  induction s as [|c s IH]; [exact I|].
  cbn [Str.lstrip]. by destruct (Str.is_space c) eqn:Hc.
Qed.

Lemma first_line_lstrip (s : string) :
  blank (first_line s) = false ->
  first_line (Str.lstrip s) = Str.lstrip (first_line s).
Proof.
  induction s as [|c s IH]; [discriminate|].
  rewrite first_line_cons.
  destruct (Ascii.eqb c (ascii_of_nat 10)) eqn:Hnl; [discriminate|].
  unfold blank. cbn [list_ascii_of_string forallb Str.lstrip].
  destruct (Str.is_space c) eqn:Hc; cbn [andb].
  - exact IH.
  - intros _. by rewrite first_line_cons, Hnl.
Qed.

Lemma rstrip_first_line (s : string) :
  Str.rstrip (first_line (Str.rstrip s)) = Str.rstrip (first_line s).
Proof.
  induction s as [|c s IH]; [reflexivity|].
  rewrite rstrip_cons, (first_line_cons c s).
  destruct (Ascii.eqb c (ascii_of_nat 10)) eqn:Hnl.
  - rewrite (newline_is_space c Hnl).
    destruct (Str.rstrip s); [reflexivity|]. by rewrite first_line_cons, Hnl.
  - rewrite rstrip_cons, <- IH.
    destruct (Str.rstrip s) as [|a r].
    + destruct (Str.is_space c) eqn:Hc; [reflexivity|].
      rewrite first_line_cons, Hnl, rstrip_cons. cbn. by rewrite Hc.
    + by rewrite (first_line_cons c), Hnl, rstrip_cons.
Qed.

Lemma lstrip_first_line_rstrip (t : string) :
  match t with
  | EmptyString => True
  | String c _ => Str.is_space c = false
  end ->
  Str.lstrip (first_line (Str.rstrip t)) = first_line (Str.rstrip t).
Proof.
  destruct t as [|c t]; [reflexivity|]. intros Hc.
  assert (Hnl : Ascii.eqb c (ascii_of_nat 10) = false).
  { destruct (Ascii.eqb c (ascii_of_nat 10)) eqn:Hnl; [|reflexivity].
    apply newline_is_space in Hnl. congruence. }
  rewrite rstrip_cons, Hc.
  destruct (Str.rstrip t); rewrite first_line_cons, Hnl; cbn [Str.lstrip]; by rewrite Hc.
Qed.

(** When the first line of a reply is not blank, trimming the reply
    before it is split does not change what the first line is trimmed
    to. *)
Lemma strip_first_line (s : string) :
  blank (first_line s) = false ->
  Str.strip (first_line (Str.strip s)) = Str.strip (first_line s).
Proof.
  intros Hblank. unfold Str.strip.
  rewrite (lstrip_first_line_rstrip (Str.lstrip s) (lstrip_head s)).
  by rewrite rstrip_first_line, first_line_lstrip.
Qed.

Lemma action_candidate_first_line (text : string) :
  blank (first_line text) = false -> action_candidate text = reply_first_line text.
Proof.
  intros Hblank. unfold action_candidate, reply_first_line.
  fold (first_line (Str.strip text)). by rewrite strip_first_line.
Qed.

Lemma parse_reply_invalid (text : string) :
  ~ In (action_candidate text) valid_actions ->
  parse_reply text = ("HOLD", "Unable to determine clear action; defaulting to HOLD.").
Proof.
  intros Hnot. unfold parse_reply. fold (action_candidate text).
  destruct (is_valid_action (action_candidate text)) eqn:Hvalid; [|reflexivity].
  apply is_valid_action_In in Hvalid. contradiction.
Qed.

(** C5, as the specification states it, fails on a reply that starts with
    a blank line: the first line of "\nBUY\nGood." is empty, so it is none
    of the three words, yet the parser answers BUY with the reason of the
    reply, because it trims the whole reply before it splits it. *)
Lemma parse_reply_blank_first_line_counterexample :
  first_line (Str.nl ++ "BUY" ++ Str.nl ++ "Good.") = ""
  /\ ~ In (reply_first_line (Str.nl ++ "BUY" ++ Str.nl ++ "Good.")) valid_actions
  /\ parse_reply (Str.nl ++ "BUY" ++ Str.nl ++ "Good.") = ("BUY", "Good.")
  /\ parse_reply (Str.nl ++ "BUY" ++ Str.nl ++ "Good.")
     <> ("HOLD", "Unable to determine clear action; defaulting to HOLD.").
Proof.
  assert (Hparse : parse_reply (Str.nl ++ "BUY" ++ Str.nl ++ "Good.") = ("BUY", "Good."))
    by (vm_compute; reflexivity).
  split; [reflexivity|]. split; [|split; [exact Hparse|]].
  - vm_compute. intros [H|[H|[H|[]]]]; discriminate.
  - rewrite Hparse. discriminate.
Qed.

(** C5, amended. A reply whose first line is not blank and, trimmed and
    uppercased, is none of BUY, SELL and HOLD is parsed to the action HOLD
    with the fixed reason "Unable to determine clear action; defaulting to
    HOLD."; so is the reply "MAYBE\nuncertain". In general the parser
    trims the whole reply before it splits it, so blank lines ahead of the
    first word are skipped and the line that is judged is the first line
    of the trimmed reply. The parsed action is always one of the three
    words, and every answer of [get_decision] that is a decision (the only
    other answer is the no-data error with status 400) carries one of the
    three words as its action. *)
Theorem parse_reply_defaults_to_hold :
  (forall text : string,
      blank (first_line text) = false ->
      ~ In (reply_first_line text) valid_actions ->
      parse_reply text
        = ("HOLD", "Unable to determine clear action; defaulting to HOLD."))
  /\ (forall text : string,
         ~ In (reply_first_line (Str.strip text)) valid_actions ->
         parse_reply text
           = ("HOLD", "Unable to determine clear action; defaulting to HOLD."))
  /\ parse_reply ("MAYBE" ++ Str.nl ++ "uncertain")
     = ("HOLD", "Unable to determine clear action; defaulting to HOLD.")
  /\ (forall text : string, In (fst (parse_reply text)) valid_actions)
  /\ (forall (g : namespace) (w : World) (ticker : string),
         (snd (get_decision g w ticker) = (error_dict "No data available", 400)
          /\ action_of (snd (get_decision g w ticker)) = None)
         \/ (DecisionResponse (fst (snd (get_decision g w ticker)))
             /\ exists action,
                  action_of (snd (get_decision g w ticker)) = Some (JString action)
                  /\ In action valid_actions)).
Proof.
  split; [|split; [|split; [|split]]].
  - intros text Hblank Hnot. apply parse_reply_invalid.
    by rewrite action_candidate_first_line.
  - intros text Hnot. by apply parse_reply_invalid.
  - vm_compute. reflexivity.
  - apply parse_reply_valid.
  - intros g w ticker.
    destruct (get_decision_response_cases g w ticker)
      as [->|(action & reason & -> & Hvalid)].
    + left. split; reflexivity.
    + right. split.
      * exists (Str.upper ticker), action, reason. by split.
      * exists action. split; [reflexivity | exact Hvalid].
Qed.

Lemma parse_reply_defaults_to_hold_witness :
  (blank (first_line ("  Maybe buy?" ++ Str.nl ++ "not sure")) = false
   /\ ~ In (reply_first_line ("  Maybe buy?" ++ Str.nl ++ "not sure")) valid_actions)
  /\ parse_reply ("  Maybe buy?" ++ Str.nl ++ "not sure")
     = ("HOLD", "Unable to determine clear action; defaulting to HOLD.").
Proof.
  assert (Hnot : ~ In (reply_first_line ("  Maybe buy?" ++ Str.nl ++ "not sure"))
                   valid_actions).
  { vm_compute. intros [H|[H|[H|[]]]]; discriminate. }
  assert (Hblank : blank (first_line ("  Maybe buy?" ++ Str.nl ++ "not sure")) = false)
    by reflexivity.
  split; [split; [exact Hblank | exact Hnot]|].
  exact (proj1 parse_reply_defaults_to_hold
           ("  Maybe buy?" ++ Str.nl ++ "not sure") Hblank Hnot).
Defined.

(** The parser at work on a few replies. *)
Example parse_reply_buy :
  parse_reply ("  buy " ++ Str.nl ++ " Momentum is strong. " ++ Str.nl)
  = ("BUY", "Momentum is strong.").
Proof. vm_compute. reflexivity. Qed.

Example parse_reply_one_line : parse_reply "sell" = ("SELL", "AI analysis complete.").
Proof. vm_compute. reflexivity. Qed.

Example parse_reply_empty :
  parse_reply "" = ("HOLD", "Unable to determine clear action; defaulting to HOLD.").
Proof. vm_compute. reflexivity. Qed.

Example get_decision_model_reply :
  snd (get_decision (Sample.with_model (Ok ("MAYBE" ++ Str.nl ++ "uncertain")))
         Sample.world "aapl")
  = (decision_dict "AAPL" "HOLD"
       "Unable to determine clear action; defaulting to HOLD.", 200).
Proof. vm_compute. reflexivity. Qed.

(** * Further properties of the handlers *)

(** ** What a formatter can answer *)

Lemma error_dict_ne (a b : string) : a <> b -> error_dict a <> error_dict b.
Proof. intros Hne Heq. by apply Hne, error_dict_inj. Qed.

Lemma series_dict_lookups t r l v :
  series_dict t r l v !! "ticker" = Some (JString t)
  /\ series_dict t r l v !! "range" = Some (JString r)
  /\ series_dict t r l v !! "labels" = Some (JStrings l)
  /\ series_dict t r l v !! "values" = Some (JFloats v)
  /\ series_dict t r l v !! "count" = Some (JInt (Z.of_nat (length v))).
Proof. repeat split. Qed.

Lemma daily_recent_nonempty (w : World) (bars : list Bar) :
  daily_filtered w bars <> [] -> daily_recent w bars <> [].
Proof.
  intros Hne Hnil. apply (f_equal (@length Bar)) in Hnil.
  unfold daily_recent in Hnil. rewrite last_rows_length in Hnil.
  destruct (daily_filtered w bars); [congruence | cbn in Hnil; lia].
Qed.

(** The answers of [format_daily_data], by what the adapter returned. *)
Lemma format_daily_data_cases (w : World) (ticker : string) :
  (no_data (get_stock_data w ticker "1mo" "1d")
   /\ format_daily_data w ticker = error_dict "No data available")
  \/ (~ no_data (get_stock_data w ticker "1mo" "1d")
      /\ (format_daily_data w ticker = error_dict "No historical data before today"
          \/ format_daily_data w ticker = error_dict "'Close'"
          \/ exists rows,
               rows <> [] /\ length rows <= 30
               /\ format_daily_data w ticker =
                    series_dict ticker "daily"
                      (map strftime_Ymd (map bar_ts rows))
                      (map F64.round2 (map bar_close rows)))).
Proof.
  destruct (yf_history w ticker "1mo" "1d") as [[bars|idx|idx]|e] eqn:Hfetch.
  - rewrite (format_daily_data_frame w ticker bars Hfetch).
    unfold get_stock_data. rewrite Hfetch.
    destruct bars as [|b bars]; [by left|]. right. split; [discriminate|].
    destruct (daily_filtered w (b :: bars)) as [|f fs] eqn:Hf; [by left|].
    right. right. exists (daily_recent w (b :: bars)). split; [|split].
    + apply daily_recent_nonempty. by rewrite Hf.
    + unfold daily_recent. rewrite last_rows_length. lia.
    + reflexivity.
  - unfold format_daily_data, format_daily_data_try, get_stock_data, no_data.
    rewrite Hfetch. destruct idx as [|i idx]; [by left|]. right.
    split; [discriminate|].
    change (DF.empty (FrameNoClose (i :: idx))) with false. cbv iota.
    cbn [DF.select]. destruct (List.filter _ (i :: idx)); cbn; auto.
  - left. unfold format_daily_data, format_daily_data_try, get_stock_data.
    rewrite Hfetch. by split.
  - left. unfold format_daily_data, format_daily_data_try, get_stock_data.
    rewrite Hfetch. by split.
Qed.

(** The answers of [format_intraday_data], by what the adapter returned. *)
Lemma format_intraday_data_cases (w : World) (ticker : string) :
  (no_data (get_stock_data w ticker "2d" "30m")
   /\ format_intraday_data w ticker = error_dict "No data available")
  \/ (~ no_data (get_stock_data w ticker "2d" "30m")
      /\ (format_intraday_data w ticker = error_dict "date value out of range"
          \/ format_intraday_data w ticker = error_dict "'Close'"
          \/ exists rows,
               rows <> []
               /\ format_intraday_data w ticker =
                    series_dict ticker "intraday"
                      (map strftime_HM (map bar_ts rows))
                      (map F64.round2 (map bar_close rows)))).
Proof.
  unfold format_intraday_data, format_intraday_data_try, no_data.
  destruct (get_stock_data w ticker "2d" "30m") as [data|]; [|by left].
  destruct (DF.empty data) eqn:Hdata; [by left|].
  right. split; [discriminate|].
  destruct (intraday_select w data) as [filtered|e] eqn:Hsel; cbn [rbind].
  - pose proof (intraday_select_nonempty w data filtered Hdata Hsel) as Hne.
    unfold intraday_respond. rewrite Hne.
    destruct filtered as [rows|idx|idx]; cbn [DF.Close rbind DF.index].
    + right. right. exists rows. split; [by destruct rows|reflexivity].
    + right. by left.
    + discriminate.
  - apply intraday_select_raise in Hsel as ->; [|exact Hdata]. by left.
Qed.

(** The answers of [format_monthly_data], by what the adapter returned. *)
Lemma format_monthly_data_cases (w : World) (ticker : string) :
  (no_data (get_stock_data w ticker "1mo" "1d")
   /\ format_monthly_data w ticker = error_dict "No data available")
  \/ (~ no_data (get_stock_data w ticker "1mo" "1d")
      /\ (format_monthly_data w ticker = error_dict "'Close'"
          \/ exists label value,
               format_monthly_data w ticker =
                 series_dict ticker "monthly" [label] [value])).
Proof.
  destruct (yf_history w ticker "1mo" "1d") as [[bars|idx|idx]|e] eqn:Hfetch.
  - destruct bars as [|b bars].
    + left. unfold format_monthly_data, format_monthly_data_try, get_stock_data.
      rewrite Hfetch. by split.
    + right. unfold get_stock_data at 1. rewrite Hfetch. split; [discriminate|].
      destruct (exists_last (l := b :: bars)) as (front & last_bar & Heq);
        [discriminate|].
      rewrite Heq in Hfetch. rewrite (format_monthly_data_frame w ticker _ _ Hfetch).
      right. eauto.
  - unfold format_monthly_data, format_monthly_data_try, get_stock_data, no_data.
    rewrite Hfetch. destruct idx as [|i idx]; [by left|].
    right. split; [discriminate|]. by left.
  - left. unfold format_monthly_data, format_monthly_data_try, get_stock_data.
    rewrite Hfetch. by split.
  - left. unfold format_monthly_data, format_monthly_data_try, get_stock_data.
    rewrite Hfetch. by split.
Qed.

(** X1. The text "No data available" identifies its cause: each formatter
    answers with it exactly when the adapter returned nothing or an empty
    table (one without rows, or without columns); every other failure
    carries another text. *)
Theorem no_data_message_iff (w : World) (ticker : string) :
  (format_daily_data w ticker = error_dict "No data available"
   <-> no_data (get_stock_data w ticker "1mo" "1d"))
  /\ (format_intraday_data w ticker = error_dict "No data available"
      <-> no_data (get_stock_data w ticker "2d" "30m"))
  /\ (format_monthly_data w ticker = error_dict "No data available"
      <-> no_data (get_stock_data w ticker "1mo" "1d")).
Proof.
  split; [|split]; (split; [|solve [apply format_daily_data_no_data
                                   | apply format_intraday_data_no_data
                                   | apply format_monthly_data_no_data]]).
  - destruct (format_daily_data_cases w ticker)
      as [[Hno _]|[_ [->|[->|(rows & _ & _ & ->)]]]]; [done|..]; intros H; exfalso.
    + by apply error_dict_inj in H.
    + by apply error_dict_inj in H.
    + by apply series_dict_not_error in H.
  - destruct (format_intraday_data_cases w ticker)
      as [[Hno _]|[_ [->|[->|(rows & _ & ->)]]]]; [done|..]; intros H; exfalso.
    + by apply error_dict_inj in H.
    + by apply error_dict_inj in H.
    + by apply series_dict_not_error in H.
  - destruct (format_monthly_data_cases w ticker)
      as [[Hno _]|[_ [->|(label & value & ->)]]]; [done|..]; intros H; exfalso.
    + by apply error_dict_inj in H.
    + by apply series_dict_not_error in H.
Qed.

Lemma no_data_message_iff_witness :
  (no_data (get_stock_data Sample.world_offline "AAPL" "1mo" "1d")
   /\ format_daily_data Sample.world_offline "AAPL" = error_dict "No data available")
  /\ (no_data (get_stock_data Sample.world_no_columns "AAPL" "1mo" "1d")
      /\ format_monthly_data Sample.world_no_columns "AAPL"
         = error_dict "No data available")
  /\ (format_intraday_data Sample.world_no_rows "AAPL" = error_dict "No data available"
      /\ no_data (get_stock_data Sample.world_no_rows "AAPL" "2d" "30m")).
Proof.
  pose proof (no_data_message_iff Sample.world_offline "AAPL") as (Hd & _ & _).
  pose proof (no_data_message_iff Sample.world_no_columns "AAPL") as (_ & _ & Hm).
  pose proof (no_data_message_iff Sample.world_no_rows "AAPL") as (_ & Hi & _).
  split; [|split].
  - split; [exact I|]. apply (proj2 Hd). exact I.
  - split; [reflexivity|]. apply (proj2 Hm). reflexivity.
  - assert (Hres : format_intraday_data Sample.world_no_rows "AAPL"
                   = error_dict "No data available") by reflexivity.
    split; [exact Hres|]. apply (proj1 Hi). exact Hres.
Defined.

(** ** Size of a series *)

Lemma series_dict_count_inv t r l v (n : Z) :
  series_dict t r l v !! "count" = Some (JInt n) -> n = Z.of_nat (length v).
Proof.
  destruct (series_dict_lookups t r l v) as (_ & _ & _ & _ & ->). congruence.
Qed.

Lemma error_dict_count (msg : string) : error_dict msg !! "count" = None.
Proof. reflexivity. Qed.

(** X2. A series is never empty: whenever a formatter answers with a
    count, the count is at least 1; it is at most 30 for the daily series
    and exactly 1 for the monthly one. *)
Theorem series_count_bounds (w : World) (ticker : string) (n : Z) :
  (format_daily_data w ticker !! "count" = Some (JInt n) -> (1 <= n <= 30)%Z)
  /\ (format_intraday_data w ticker !! "count" = Some (JInt n) -> (1 <= n)%Z)
  /\ (format_monthly_data w ticker !! "count" = Some (JInt n) -> n = 1%Z).
Proof.
  split; [|split].
  - destruct (format_daily_data_cases w ticker)
      as [[_ ->]|[_ [->|[->|(rows & Hne & Hle & ->)]]]];
      rewrite ?error_dict_count; try discriminate.
    intros ->%series_dict_count_inv. rewrite !length_map.
    destruct rows; [congruence | cbn [length] in *; lia].
  - destruct (format_intraday_data_cases w ticker)
      as [[_ ->]|[_ [->|[->|(rows & Hne & ->)]]]];
      rewrite ?error_dict_count; try discriminate.
    intros ->%series_dict_count_inv. rewrite !length_map.
    destruct rows; [congruence | cbn [length]; lia].
  - destruct (format_monthly_data_cases w ticker)
      as [[_ ->]|[_ [->|(label & value & ->)]]];
      rewrite ?error_dict_count; try discriminate.
    by intros ->%series_dict_count_inv.
Qed.

Lemma series_count_bounds_witness :
  format_daily_data Sample.world "AAPL" !! "count" = Some (JInt 2)
  /\ (1 <= 2 <= 30)%Z.
Proof.
  assert (Hcount : format_daily_data Sample.world "AAPL" !! "count" = Some (JInt 2))
    by (vm_compute; reflexivity).
  split; [exact Hcount|].
  exact (proj1 (series_count_bounds Sample.world "AAPL" 2) Hcount).
Defined.

(** ** Ticker normalisation *)

Lemma upper_char_idem (c : ascii) :
  Str.upper_char (Str.upper_char c) = Str.upper_char c.
Proof. destruct c as [[] [] [] [] [] [] [] []]; reflexivity. Qed.

Lemma upper_idem (s : string) : Str.upper (Str.upper s) = Str.upper s.
Proof.
  induction s as [|c s IH]; [reflexivity|].
  cbn [Str.upper]. by rewrite upper_char_idem, IH.
Qed.

Lemma upper_length (s : string) : String.length (Str.upper s) = String.length s.
Proof. induction s as [|c s IH]; [reflexivity|]. cbn. by rewrite IH. Qed.

(** X3. The ticker is normalised at the route: each of the five ticker
    routes answers a ticker and its upper-cased form alike, and a series
    answer echoes the upper-cased ticker. *)
Theorem routes_normalise_ticker (g : namespace) (w : World) (ticker : string) :
  get_daily w (Str.upper ticker) = get_daily w ticker
  /\ get_monthly w (Str.upper ticker) = get_monthly w ticker
  /\ get_intraday w (Str.upper ticker) = get_intraday w ticker
  /\ get_info w (Str.upper ticker) = get_info w ticker
  /\ get_decision g w (Str.upper ticker) = get_decision g w ticker
  /\ Forall (fun r : response =>
               fst r !! "ticker" = Some (JString (Str.upper ticker))
               \/ ErrorOnly (fst r))
       [get_daily w ticker; get_monthly w ticker; get_intraday w ticker].
Proof.
  unfold get_daily, get_monthly, get_intraday, get_info, get_info_try, get_decision.
  rewrite !upper_idem. repeat (split; [reflexivity|]).
  repeat apply List.Forall_cons; try apply List.Forall_nil; cbn [jsonify fst].
  - destruct (format_daily_data_cases w (Str.upper ticker))
      as [[_ ->]|[_ [->|[->|(rows & _ & _ & ->)]]]];
      try (right; apply error_dict_ErrorOnly). by left.
  - destruct (format_monthly_data_cases w (Str.upper ticker))
      as [[_ ->]|[_ [->|(label & value & ->)]]];
      try (right; apply error_dict_ErrorOnly). by left.
  - destruct (format_intraday_data_cases w (Str.upper ticker))
      as [[_ ->]|[_ [->|[->|(rows & _ & ->)]]]];
      try (right; apply error_dict_ErrorOnly). by left.
Qed.

(** ** One day of half-hour bars *)

Lemma filter_nil_existsb {A : Type} (p : A -> bool) (l : list A) :
  List.filter p l = [] <-> existsb p l = false.
Proof.
  induction l as [|x l IH]; [done|].
  cbn [List.filter existsb]. destruct (p x); cbn [orb]; [split; discriminate|].
  exact IH.
Qed.

Lemma intraday_rows_day (yesterday : date) (bars : list Bar) :
  bars <> [] ->
  exists d,
    intraday_day yesterday bars = Some d
    /\ intraday_rows yesterday bars
       = List.filter (fun b => date_eqb (bar_date b) d) bars.
Proof.
  intros Hne. unfold intraday_day, intraday_rows.
  destruct (existsb _ bars) eqn:Hex.
  - exists yesterday. split; [reflexivity|].
    destruct (List.filter _ bars) eqn:Hsel; [|reflexivity].
    apply filter_nil_existsb in Hsel. congruence.
  - apply filter_nil_existsb in Hex. rewrite Hex.
    destruct (exists_last Hne) as (front & last_bar & ->).
    rewrite map_app. cbn [map]. rewrite List.last_last.
    exists (bar_date last_bar). by split.
Qed.

(** X4. The intraday series covers one calendar day: on a table with rows
    the formatter reports all the rows of one day and no other row; the
    day is yesterday when a row is dated yesterday, and the day of the
    last row otherwise. *)
Theorem format_intraday_data_single_day
    (w : World) (ticker : string) (bars : list Bar) (yesterday : date) :
  yf_history w ticker "2d" "30m" = Ok (Frame bars) ->
  bars <> [] ->
  date_minus_one_day (utc_today w) = Ok yesterday ->
  exists d rows,
    intraday_day yesterday bars = Some d
    /\ (forall b, In b rows <-> In b bars /\ bar_date b = d)
    /\ rows `sublist_of` bars
    /\ rows <> []
    /\ format_intraday_data w ticker =
         series_dict ticker "intraday"
           (map strftime_HM (map bar_ts rows))
           (map F64.round2 (map bar_close rows)).
Proof.
  intros Hfetch Hne Hy.
  destruct (intraday_rows_day yesterday bars Hne) as (d & Hday & Hrows).
  exists d, (intraday_rows yesterday bars). split; [exact Hday|].
  split; [|split; [|split]].
  - intros b. rewrite Hrows, List.filter_In, date_eqb_eq. tauto.
  - rewrite Hrows. apply filter_sublist.
  - by apply intraday_rows_nonempty.
  - by apply (format_intraday_data_frame w ticker bars yesterday).
Qed.

Lemma format_intraday_data_single_day_witness :
  (yf_history Sample.world "AAPL" "2d" "30m" = Ok (Frame Sample.friday_bars)
   /\ Sample.friday_bars <> []
   /\ date_minus_one_day (utc_today Sample.world) = Ok (Date 2024 6 2))
  /\ exists d rows,
       intraday_day (Date 2024 6 2) Sample.friday_bars = Some d
       /\ (forall b, In b rows <-> In b Sample.friday_bars /\ bar_date b = d)
       /\ rows `sublist_of` Sample.friday_bars
       /\ rows <> []
       /\ format_intraday_data Sample.world "AAPL" =
            series_dict "AAPL" "intraday"
              (map strftime_HM (map bar_ts rows))
              (map F64.round2 (map bar_close rows)).
Proof.
  split; [split; [reflexivity | split; [discriminate | reflexivity]]|].
  apply (format_intraday_data_single_day Sample.world "AAPL" Sample.friday_bars
           (Date 2024 6 2)); [reflexivity | discriminate | reflexivity].
Defined.

(** ** Bars that are not before today *)

Lemma daily_filtered_app (w : World) (bars extra : list Bar) :
  Forall (not_before_today w) extra ->
  daily_filtered w (bars ++ extra) = daily_filtered w bars.
Proof.
  intros Hextra. unfold daily_filtered. rewrite List.filter_app.
  rewrite (filter_none _ extra); [apply app_nil_r|].
  eapply List.Forall_impl; [|exact Hextra]. by intros b Hb.
Qed.

(** X5. Bars dated today or later never show in the daily series: when a
    table has a bar before today, appending bars that are not before today
    leaves the answer as it is. *)
Theorem format_daily_data_ignores_later_bars
    (w w' : World) (ticker : string) (bars extra : list Bar) :
  utc_today w' = utc_today w ->
  yf_history w ticker "1mo" "1d" = Ok (Frame bars) ->
  yf_history w' ticker "1mo" "1d" = Ok (Frame (bars ++ extra)) ->
  Forall (not_before_today w) extra ->
  daily_filtered w bars <> [] ->
  format_daily_data w' ticker = format_daily_data w ticker.
Proof.
  intros Htoday Hfetch Hfetch' Hextra Hne.
  rewrite (format_daily_data_frame w ticker bars Hfetch).
  rewrite (format_daily_data_frame w' ticker _ Hfetch').
  assert (Hsame : daily_filtered w' (bars ++ extra) = daily_filtered w bars).
  { unfold daily_filtered at 1. rewrite Htoday. by apply daily_filtered_app. }
  destruct bars as [|b bars]; [by destruct Hne|].
  unfold daily_recent. cbn [app] in *. rewrite Hsame.
  destruct (daily_filtered w (b :: bars)); [by destruct Hne | reflexivity].
Qed.

Lemma format_daily_data_ignores_later_bars_witness :
  (utc_today Sample.world = utc_today Sample.world_two_closes
   /\ yf_history Sample.world_two_closes "AAPL" "1mo" "1d" = Ok (Frame Sample.two_closes)
   /\ yf_history Sample.world "AAPL" "1mo" "1d"
      = Ok (Frame (Sample.two_closes ++ [Sample.daily_bar 2024 6 3 101500]))
   /\ Forall (not_before_today Sample.world_two_closes)
        [Sample.daily_bar 2024 6 3 101500]
   /\ daily_filtered Sample.world_two_closes Sample.two_closes <> [])
  /\ format_daily_data Sample.world "AAPL"
     = format_daily_data Sample.world_two_closes "AAPL".
Proof.
  assert (Hextra : Forall (not_before_today Sample.world_two_closes)
                     [Sample.daily_bar 2024 6 3 101500]).
  { repeat constructor. }
  assert (Hne : daily_filtered Sample.world_two_closes Sample.two_closes <> []).
  { vm_compute. discriminate. }
  split; [repeat split; assumption|].
  apply (format_daily_data_ignores_later_bars Sample.world_two_closes Sample.world
           "AAPL" Sample.two_closes [Sample.daily_bar 2024 6 3 101500]);
    [reflexivity | reflexivity | reflexivity | exact Hextra | exact Hne].
Defined.

(** ** The decision service end to end *)

(** The outbound calls of the [try] block of [get_decision], step by
    step. *)
Lemma get_decision_try_calls (g : namespace) (w : World) (ticker : string) :
  fst (get_decision_try g w ticker) =
    match load_name g "GEMINI_API_KEY" with
    | Raise _ => []
    | Ok key =>
        if negb (truthy key) then []
        else
          CallHistory ticker "5d" "1d" ::
          match yf_history w ticker "5d" "1d" with
          | Raise _ => []
          | Ok hist =>
              CallInfo ticker ::
              match yf_info w ticker with
              | Raise _ => []
              | Ok info =>
                  if DF.empty hist then []
                  else
                    match DF.Close hist with
                    | Raise _ => []
                    | Ok closes =>
                        match load_name g "genai" with
                        | Raise _ => []
                        | Ok genai =>
                            match GenerativeModel genai "gemini-pro" with
                            | Raise _ => []
                            | Ok _ => [CallGenerate (decision_prompt ticker info closes)]
                            end
                        end
                    end
              end
          end
    end.
Proof.
  unfold get_decision_try.
  rewrite fst_ebind. cbn [local fst snd app].
  destruct (load_name g "GEMINI_API_KEY") as [key|e]; [|reflexivity].
  destruct (truthy key); cbn [negb]; [|reflexivity].
  rewrite fst_ebind. cbn [outbound fst snd app]. f_equal.
  destruct (yf_history w ticker "5d" "1d") as [hist|e]; [|reflexivity].
  rewrite fst_ebind. cbn [outbound fst snd app]. f_equal.
  destruct (yf_info w ticker) as [info|e]; [|reflexivity].
  destruct (DF.empty hist); [reflexivity|].
  rewrite fst_ebind. cbn [local fst snd app].
  destruct (DF.Close hist) as [closes|e]; [|reflexivity].
  rewrite fst_ebind. cbn [local fst snd app].
  destruct (load_name g "genai") as [genai|e]; [|reflexivity].
  rewrite fst_ebind. cbn [local fst snd app].
  destruct (GenerativeModel genai "gemini-pro") as [model|e]; [|reflexivity].
  rewrite fst_ebind. cbn [outbound fst snd]. unfold decision_prompt. cbv zeta.
  match goal with
  | |- context [model ?p] => destruct (model p) as [text|e]; [|reflexivity]
  end.
  by destruct (parse_reply text).
Qed.

(** X6. The outbound calls of a decision come in one order and are never
    more than three: the history request, then the info request, then the
    request to the model. The model is asked only after both provider
    requests succeeded on a table with rows and a Close column, and the
    prompt it is sent is the one built from that table. *)
Theorem get_decision_calls_in_order (g : namespace) (w : World) (ticker : string) :
  (exists prompt,
      fst (get_decision g w ticker) `prefix_of` decision_calls (Str.upper ticker) prompt)
  /\ (forall prompt,
         In (CallGenerate prompt) (fst (get_decision g w ticker)) ->
         exists key hist info closes,
           g !! "GEMINI_API_KEY" = Some key
           /\ truthy key = true
           /\ yf_history w (Str.upper ticker) "5d" "1d" = Ok hist
           /\ yf_info w (Str.upper ticker) = Ok info
           /\ DF.empty hist = false
           /\ DF.Close hist = Ok closes
           /\ prompt = decision_prompt (Str.upper ticker) info closes).
Proof.
  rewrite get_decision_fst, get_decision_try_calls. unfold load_name at 1 3.
  destruct (g !! "GEMINI_API_KEY") as [key|] eqn:Hkey.
  2: { split; [exists ""; by eexists | by intros prompt []]. }
  destruct (truthy key) eqn:Hconf; cbn [negb].
  2: { split; [exists ""; by eexists | by intros prompt []]. }
  destruct (yf_history w _ "5d" "1d") as [hist|e] eqn:Hhist.
  2: { split; [exists ""; by eexists|]. intros prompt [H|[]]. discriminate. }
  destruct (yf_info w _) as [info|e] eqn:Hinfo.
  2: { split; [exists ""; by eexists|]. intros prompt [H|[H|[]]]; discriminate. }
  destruct (DF.empty hist) eqn:Hrows.
  { split; [exists ""; by eexists|]. intros prompt [H|[H|[]]]; discriminate. }
  destruct (DF.Close hist) as [closes|e] eqn:Hclose.
  2: { split; [exists ""; by eexists|]. intros prompt [H|[H|[]]]; discriminate. }
  destruct (load_name g "genai") as [genai|e].
  2: { split; [exists ""; by eexists|]. intros prompt [H|[H|[]]]; discriminate. }
  destruct (GenerativeModel genai "gemini-pro") as [model|e].
  2: { split; [exists ""; by eexists|]. intros prompt [H|[H|[]]]; discriminate. }
  split.
  - exists (decision_prompt (Str.upper ticker) info closes). by exists [].
  - intros prompt [H|[H|[H|[]]]]; try discriminate.
    injection H as <-. by exists key, hist, info, closes.
Qed.

Lemma get_decision_calls_in_order_witness :
  In (CallGenerate (decision_prompt "AAPL" ∅ (map bar_close Sample.daily_bars)))
    (fst (get_decision (Sample.with_model (Ok "BUY")) Sample.world "aapl"))
  /\ exists key hist info closes,
       Sample.with_model (Ok "BUY") !! "GEMINI_API_KEY" = Some key
       /\ truthy key = true
       /\ yf_history Sample.world (Str.upper "aapl") "5d" "1d" = Ok hist
       /\ yf_info Sample.world (Str.upper "aapl") = Ok info
       /\ DF.empty hist = false
       /\ DF.Close hist = Ok closes
       /\ decision_prompt "AAPL" ∅ (map bar_close Sample.daily_bars)
          = decision_prompt (Str.upper "aapl") info closes.
Proof.
  assert (Hin : In (CallGenerate (decision_prompt "AAPL" ∅
                                    (map bar_close Sample.daily_bars)))
                  (fst (get_decision (Sample.with_model (Ok "BUY"))
                          Sample.world "aapl"))).
  { vm_compute. right. right. left. reflexivity. }
  split; [exact Hin|].
  exact (proj2 (get_decision_calls_in_order (Sample.with_model (Ok "BUY"))
                  Sample.world "aapl") _ Hin).
Defined.

(** X7. A decision from the model: with the credential configured, a
    text-generation module bound to [genai], both provider requests
    answered on a table with rows, and the model answering [text], the
    response has status 200 and carries the upper-cased ticker with the
    action and the reason parsed from [text]; the three outbound calls are
    made in order, the last one with the prompt built from the table. *)
Theorem get_decision_from_model
    (g : namespace) (w : World) (ticker : string) (key : pyobj)
    (generate : string -> string -> result string)
    (hist : DataFrame) (info : gmap string string) (closes : list F64.float)
    (text : string) :
  g !! "GEMINI_API_KEY" = Some key ->
  truthy key = true ->
  g !! "genai" = Some (PyTextApi generate) ->
  yf_history w (Str.upper ticker) "5d" "1d" = Ok hist ->
  yf_info w (Str.upper ticker) = Ok info ->
  DF.empty hist = false ->
  DF.Close hist = Ok closes ->
  generate "gemini-pro" (decision_prompt (Str.upper ticker) info closes) = Ok text ->
  get_decision g w ticker =
    (decision_calls (Str.upper ticker)
       (decision_prompt (Str.upper ticker) info closes),
     (decision_dict (Str.upper ticker)
        (fst (parse_reply text)) (snd (parse_reply text)), 200))
  /\ In (fst (parse_reply text)) valid_actions.
Proof.
  intros Hkey Hconf Hgenai Hhist Hinfo Hrows Hclose Hgen.
  split; [|apply parse_reply_valid].
  unfold decision_prompt in Hgen. cbv zeta in Hgen.
  unfold get_decision, get_decision_try.
  rewrite (load_name_Some g _ key Hkey). cbn [local ebind]. rewrite Hconf. cbn [negb].
  rewrite Hhist. cbn [outbound ebind]. rewrite Hinfo, Hrows. cbn [outbound ebind local].
  rewrite Hclose. cbn [ebind]. rewrite (load_name_Some g _ _ Hgenai).
  cbn [ebind GenerativeModel]. rewrite Hgen. cbn [ebind].
  by destruct (parse_reply text).
Qed.

Lemma get_decision_from_model_witness :
  (Sample.with_model (Ok ("sell" ++ Str.nl ++ " Momentum is fading. "))
     !! "GEMINI_API_KEY" = Some (PyStr "secret")
   /\ truthy (PyStr "secret") = true
   /\ yf_history Sample.world (Str.upper "aapl") "5d" "1d" = Ok (Frame Sample.daily_bars)
   /\ yf_info Sample.world (Str.upper "aapl") = Ok ∅
   /\ DF.empty (Frame Sample.daily_bars) = false
   /\ DF.Close (Frame Sample.daily_bars) = Ok (map bar_close Sample.daily_bars))
  /\ snd (get_decision
            (Sample.with_model (Ok ("sell" ++ Str.nl ++ " Momentum is fading. ")))
            Sample.world "aapl")
     = (decision_dict "AAPL" "SELL" "Momentum is fading.", 200).
Proof.
  split; [repeat split|].
  destruct (get_decision_from_model
              (Sample.with_model (Ok ("sell" ++ Str.nl ++ " Momentum is fading. ")))
              Sample.world "aapl" (PyStr "secret")
              (fun _ _ => Ok ("sell" ++ Str.nl ++ " Momentum is fading. "))
              (Frame Sample.daily_bars) ∅ (map bar_close Sample.daily_bars)
              ("sell" ++ Str.nl ++ " Momentum is fading. ")
              eq_refl eq_refl eq_refl eq_refl eq_refl eq_refl eq_refl eq_refl)
    as [-> _].
  vm_compute. reflexivity.
Defined.

(** The answer on an empty table, with the calls made. *)
Lemma get_decision_no_rows
    (g : namespace) (w : World) (ticker : string) (key : pyobj)
    (hist : DataFrame) (info : gmap string string) :
  g !! "GEMINI_API_KEY" = Some key ->
  truthy key = true ->
  yf_history w (Str.upper ticker) "5d" "1d" = Ok hist ->
  yf_info w (Str.upper ticker) = Ok info ->
  DF.empty hist = true ->
  get_decision g w ticker =
    ([CallHistory (Str.upper ticker) "5d" "1d"; CallInfo (Str.upper ticker)],
     (error_dict "No data available", 400)).
Proof.
  intros Hkey Hconf Hhist Hinfo Hrows.
  unfold get_decision, get_decision_try.
  rewrite (load_name_Some g _ key Hkey). cbn [local ebind]. rewrite Hconf. cbn [negb].
  rewrite Hhist. cbn [outbound ebind]. rewrite Hinfo, Hrows. reflexivity.
Qed.

(** X8. The status of a decision is 200 or 400, and it is 400 exactly when
    the credential is configured and both provider requests succeed on an
    empty table (one without rows, or without columns); the info request
    is made before the table is looked at, so the answer is then the error
    "No data available" after two outbound calls. In particular an
    exception of the info request on an empty table gives status 200. *)
Theorem get_decision_status (g : namespace) (w : World) (ticker : string) :
  (status_of (snd (get_decision g w ticker)) = 200
   \/ status_of (snd (get_decision g w ticker)) = 400)
  /\ (status_of (snd (get_decision g w ticker)) = 400 <->
      exists key hist info,
        g !! "GEMINI_API_KEY" = Some key
        /\ truthy key = true
        /\ yf_history w (Str.upper ticker) "5d" "1d" = Ok hist
        /\ yf_info w (Str.upper ticker) = Ok info
        /\ DF.empty hist = true)
  /\ (status_of (snd (get_decision g w ticker)) = 400 ->
      get_decision g w ticker =
        ([CallHistory (Str.upper ticker) "5d" "1d"; CallInfo (Str.upper ticker)],
         (error_dict "No data available", 400))).
Proof.
  assert (Hiff : status_of (snd (get_decision g w ticker)) = 400 ->
                 exists key hist info,
                   g !! "GEMINI_API_KEY" = Some key
                   /\ truthy key = true
                   /\ yf_history w (Str.upper ticker) "5d" "1d" = Ok hist
                   /\ yf_info w (Str.upper ticker) = Ok info
                   /\ DF.empty hist = true).
  { rewrite get_decision_snd.
    destruct (g !! "GEMINI_API_KEY") as [key|] eqn:Hkey.
    - destruct (truthy key) eqn:Hconf.
      + rewrite (get_decision_try_configured g w _ key Hkey Hconf).
        destruct (yf_history w _ "5d" "1d") as [hist|e]; cbn [rbind]; [|discriminate].
        destruct (yf_info w _) as [info|e]; cbn [rbind]; [|discriminate].
        destruct (DF.empty hist) eqn:Hrows.
        { intros _. by exists key, hist, info. }
        destruct (DF.Close hist) as [closes|e]; cbn [rbind]; [|discriminate].
        destruct (load_name g "genai") as [genai|e]; cbn [rbind]; [|discriminate].
        destruct (GenerativeModel genai "gemini-pro") as [model|e]; cbn [rbind];
          [|discriminate].
        destruct (model _) as [text|e]; cbn [rbind]; discriminate.
      + unfold get_decision_try. rewrite (load_name_Some g _ key Hkey).
        cbn [local ebind]. rewrite Hconf. discriminate.
    - unfold get_decision_try. rewrite (load_name_None g _ Hkey). discriminate. }
  split; [|split].
  - destruct (get_decision_response_cases g w ticker)
      as [->|(action & reason & -> & _)]; [by right | by left].
  - split; [exact Hiff|].
    intros (key & hist & info & Hkey & Hconf & Hhist & Hinfo & Hrows).
    by rewrite (get_decision_no_rows g w ticker key hist info).
  - intros H400. destruct (Hiff H400) as (key & hist & info & ? & ? & ? & ? & ?).
    by apply (get_decision_no_rows g w ticker key hist info).
Qed.

(** A table with rows and no column counts as empty. *)
Example get_decision_no_columns :
  get_decision Sample.configured Sample.world_no_columns "aapl" =
    ([CallHistory "AAPL" "5d" "1d"; CallInfo "AAPL"],
     (error_dict "No data available", 400)).
Proof.
  apply (get_decision_no_rows Sample.configured Sample.world_no_columns "aapl"
           (PyStr "secret") (FrameNoColumns [Stamp (Date 2024 5 31) 0 0]) ∅);
    reflexivity.
Qed.

Lemma get_decision_status_witness :
  status_of (snd (get_decision Sample.configured Sample.world_no_rows "aapl")) = 400
  /\ get_decision Sample.configured Sample.world_no_rows "aapl" =
       ([CallHistory "AAPL" "5d" "1d"; CallInfo "AAPL"],
        (error_dict "No data available", 400)).
Proof.
  assert (H400 : status_of (snd (get_decision Sample.configured
                                   Sample.world_no_rows "aapl")) = 400).
  { apply (proj2 (proj1 (proj2 (get_decision_status Sample.configured
                                  Sample.world_no_rows "aapl")))).
    exists (PyStr "secret"), (Frame []), ∅. repeat split. }
  split; [exact H400|].
  exact (proj2 (proj2 (get_decision_status Sample.configured
                         Sample.world_no_rows "aapl")) H400).
Defined.

(** ** What the parser does not look at *)

Lemma is_space_upper_char (c : ascii) :
  Str.is_space (Str.upper_char c) = Str.is_space c.
Proof. destruct c as [[] [] [] [] [] [] [] []]; reflexivity. Qed.

Lemma newline_upper_char (c : ascii) :
  Ascii.eqb (Str.upper_char c) (ascii_of_nat 10) = Ascii.eqb c (ascii_of_nat 10).
Proof. destruct c as [[] [] [] [] [] [] [] []]; reflexivity. Qed.

Lemma lstrip_upper (s : string) : Str.lstrip (Str.upper s) = Str.upper (Str.lstrip s).
Proof.
  induction s as [|c s IH]; [reflexivity|].
  cbn [Str.upper Str.lstrip]. rewrite is_space_upper_char.
  by destruct (Str.is_space c).
Qed.

Lemma rstrip_upper (s : string) : Str.rstrip (Str.upper s) = Str.upper (Str.rstrip s).
Proof.
  induction s as [|c s IH]; [reflexivity|].
  cbn [Str.upper Str.rstrip]. rewrite IH, is_space_upper_char.
  destruct (Str.rstrip s); cbn [Str.upper]; [by destruct (Str.is_space c) | reflexivity].
Qed.

Lemma strip_upper (s : string) : Str.strip (Str.upper s) = Str.upper (Str.strip s).
Proof. unfold Str.strip. by rewrite lstrip_upper, rstrip_upper. Qed.

Lemma split_lines_upper (s : string) :
  Str.split_lines (Str.upper s) = map Str.upper (Str.split_lines s).
Proof.
  induction s as [|c s IH]; [reflexivity|].
  cbn [Str.upper Str.split_lines]. rewrite newline_upper_char, IH.
  destruct (Ascii.eqb c (ascii_of_nat 10)); [reflexivity|].
  by destruct (Str.split_lines s).
Qed.

Lemma action_candidate_upper (text : string) :
  action_candidate (Str.upper text) = action_candidate text.
Proof.
  unfold action_candidate. rewrite strip_upper, split_lines_upper.
  destruct (Str.split_lines (Str.strip text)) as [|line0 rest]; [reflexivity|].
  cbn [map hd]. by rewrite strip_upper, upper_idem.
Qed.

Lemma append_cons (c : ascii) (s t : string) : String c s ++ t = String c (s ++ t).
Proof. reflexivity. Qed.

Lemma append_nil_l (s : string) : "" ++ s = s.
Proof. reflexivity. Qed.

Lemma append_nil_r (s : string) : s ++ "" = s.
Proof. induction s as [|c s IH]; [reflexivity|]. by rewrite append_cons, IH. Qed.

Lemma lstrip_blank_app (pad s : string) :
  blank pad = true -> Str.lstrip (pad ++ s) = Str.lstrip s.
Proof.
  induction pad as [|c pad IH]; [reflexivity|].
  unfold blank. cbn [list_ascii_of_string forallb]. intros [Hc Hpad]%andb_true_iff.
  rewrite append_cons. cbn [Str.lstrip]. rewrite Hc. by apply IH.
Qed.

Lemma rstrip_blank (pad : string) : blank pad = true -> Str.rstrip pad = "".
Proof.
  induction pad as [|c pad IH]; [reflexivity|].
  unfold blank. cbn [list_ascii_of_string forallb]. intros [Hc Hpad]%andb_true_iff.
  cbn [Str.rstrip]. rewrite (IH Hpad). by rewrite Hc.
Qed.

Lemma rstrip_app_blank (s pad : string) :
  blank pad = true -> Str.rstrip (s ++ pad) = Str.rstrip s.
Proof.
  intros Hpad. induction s as [|c s IH]; [by apply rstrip_blank|].
  rewrite append_cons. cbn [Str.rstrip]. by rewrite IH.
Qed.

Lemma strip_padding (pad1 text pad2 : string) :
  blank pad1 = true -> blank pad2 = true ->
  Str.strip (pad1 ++ text ++ pad2) = Str.strip text.
Proof.
  intros Hpad1 Hpad2. unfold Str.strip. rewrite (lstrip_blank_app pad1 _ Hpad1).
  induction text as [|c text IH].
  - rewrite append_nil_l. rewrite <- (append_nil_r pad2) at 1.
    rewrite (lstrip_blank_app pad2 "" Hpad2). reflexivity.
  - rewrite append_cons. cbn [Str.lstrip]. destruct (Str.is_space c); [exact IH|].
    rewrite <- append_cons. by apply rstrip_app_blank.
Qed.

(** X9. The parser looks at neither the whitespace around the reply nor
    the case of its letters when it picks the action: whitespace before
    and after the reply leaves the parsed action and reason as they are,
    and a reply and its upper-cased form give the same action. *)
Theorem parse_reply_ignores_padding_and_case :
  (forall pad1 text pad2 : string,
      blank pad1 = true -> blank pad2 = true ->
      parse_reply (pad1 ++ text ++ pad2) = parse_reply text)
  /\ (forall text : string,
         fst (parse_reply (Str.upper text)) = fst (parse_reply text)).
Proof.
  split.
  - intros pad1 text pad2 Hpad1 Hpad2. unfold parse_reply.
    by rewrite (strip_padding pad1 text pad2 Hpad1 Hpad2).
  - intros text. by rewrite !parse_reply_action, action_candidate_upper.
Qed.

Lemma parse_reply_ignores_padding_and_case_witness :
  (blank (Str.nl ++ "  ") = true /\ blank (" " ++ Str.nl) = true)
  /\ parse_reply ((Str.nl ++ "  ") ++ ("Buy" ++ Str.nl ++ "Earnings beat.") ++ (" " ++ Str.nl))
     = ("BUY", "Earnings beat.").
Proof.
  split; [split; reflexivity|].
  rewrite (proj1 parse_reply_ignores_padding_and_case
             (Str.nl ++ "  ") ("Buy" ++ Str.nl ++ "Earnings beat.") (" " ++ Str.nl)
             eq_refl eq_refl).
  vm_compute. reflexivity.
Defined.

(** ** The prices quoted in the prompt *)

Lemma last_last_rows {A : Type} (n : nat) (l : list A) (d : A) :
  l <> [] -> List.last (DF.last_rows (S n) l) d = List.last l d.
Proof.
  intros Hne. unfold DF.last_rows.
  assert (Hdrop : drop (length l - S n) l <> []).
  { intros Hnil. apply (f_equal (@length A)) in Hnil.
    rewrite length_drop in Hnil. destruct l; [congruence | cbn in Hnil; lia]. }
  remember (length l - S n) as k eqn:Hk. clear Hk.
  destruct (exists_last Hdrop) as (front & x & Heq).
  transitivity (List.last (take k l ++ drop k l) d);
    [|by rewrite take_drop].
  by rewrite Heq, app_assoc, !List.last_last.
Qed.

(** X10. The prompt quotes the latest closes: on a table with rows the
    list of recent prices holds the last [min 5 n] closes in the order of
    the table, and the current price is the last close of the table, so
    the default price 0 is never quoted. *)
Theorem decision_prompt_latest_closes
    (ticker : string) (info : gmap string string) (closes : list F64.float) :
  closes <> [] ->
  let recent_prices := DF.last_rows 5 closes in
  recent_prices `suffix_of` closes
  /\ length recent_prices = Nat.min 5 (length closes)
  /\ recent_prices <> []
  /\ (forall default_price,
         List.last recent_prices default_price = List.last closes default_price)
  /\ decision_prompt ticker info closes =
       build_prompt ticker info (List.last closes (S754_zero false)) recent_prices.
Proof.
  intros Hne recent_prices. subst recent_prices.
  split; [apply last_rows_suffix|]. split; [apply last_rows_length|].
  split; [|split].
  - intros Hnil. apply (f_equal (@length F64.float)) in Hnil.
    rewrite last_rows_length in Hnil. destruct closes; [congruence | cbn in Hnil; lia].
  - intros default_price. by apply last_last_rows.
  - unfold decision_prompt. cbv zeta. by rewrite last_last_rows.
Qed.

Lemma decision_prompt_latest_closes_witness :
  map bar_close Sample.daily_bars <> []
  /\ decision_prompt "AAPL" ∅ (map bar_close Sample.daily_bars) =
       build_prompt "AAPL" ∅ (F64.of_decimal 101500 3)
         (map bar_close Sample.daily_bars).
Proof.
  assert (Hne : map bar_close Sample.daily_bars <> []) by discriminate.
  split; [exact Hne|].
  destruct (decision_prompt_latest_closes "AAPL" ∅ _ Hne) as (_ & _ & _ & _ & ->).
  reflexivity.
Defined.

(** ** Basic stock info *)

Lemma info_dict_lookups (ticker : string) (info : gmap string string) :
  info_dict ticker info !! "ticker" = Some (JString ticker)
  /\ info_dict ticker info !! "name" = Some (info_field info "longName")
  /\ info_dict ticker info !! "price" = Some (info_field info "currentPrice")
  /\ info_dict ticker info !! "change" = Some (info_field info "regularMarketChange")
  /\ info_dict ticker info !! "changePercent"
     = Some (info_field info "regularMarketChangePercent")
  /\ info_dict ticker info !! "error" = None.
Proof. repeat split. Qed.

(** X11. [get_info] makes one request to the provider. When the provider
    answers, the response has status 200 and holds the upper-cased ticker
    and the four fields name, price, change and changePercent, each the
    provider's value or "N/A" when the provider's dictionary lacks the
    key, and no error field; when the provider raises [e], the response is
    [{error: str(e)}], untruncated, with status 400. The status is 400
    exactly when the provider raises. *)
Theorem get_info_answer (w : World) (ticker : string) :
  fst (get_info w ticker) = [CallInfo (Str.upper ticker)]
  /\ (forall info,
         yf_info w (Str.upper ticker) = Ok info ->
         exists body,
           snd (get_info w ticker) = (body, 200)
           /\ body !! "ticker" = Some (JString (Str.upper ticker))
           /\ Forall (fun '(field, key) =>
                        body !! field = Some (JString (default "N/A" (info !! key))))
                [("name", "longName"); ("price", "currentPrice");
                 ("change", "regularMarketChange");
                 ("changePercent", "regularMarketChangePercent")]
           /\ body !! "error" = None)
  /\ (forall e,
         yf_info w (Str.upper ticker) = Raise e ->
         snd (get_info w ticker) = (error_dict (exn_str e), 400))
  /\ (status_of (snd (get_info w ticker)) = 400 <->
      exists e, yf_info w (Str.upper ticker) = Raise e).
Proof.
  unfold get_info, get_info_try, status_of.
  destruct (yf_info w (Str.upper ticker)) as [info|e]; cbn.
  - split; [reflexivity|]. split; [|split; [discriminate|]].
    + intros info' [= <-]. eexists. split; [reflexivity|].
      destruct (info_dict_lookups (Str.upper ticker) info)
        as (Ht & Hn & Hp & Hc & Hcp & He).
      split; [exact Ht|]. split; [|exact He].
      repeat apply List.Forall_cons; try apply List.Forall_nil; assumption.
    + split; [discriminate | intros [e [=]]].
  - split; [reflexivity|]. split; [discriminate|]. split.
    + by intros e' [= <-].
    + split; [eauto | reflexivity].
Qed.

Lemma get_info_answer_witness :
  (yf_info Sample.world (Str.upper "aapl") = Ok ∅
   /\ snd (get_info Sample.world "aapl") = (info_dict "AAPL" ∅, 200)
   /\ info_dict "AAPL" ∅ !! "price" = Some (JString "N/A"))
  /\ status_of (snd (get_info
                       (Sample.world_of Sample.monday (Ok (Frame [])) (Ok (Frame [])))
                       "aapl")) <> 400.
Proof.
  split.
  - split; [reflexivity|].
    destruct (proj1 (proj2 (get_info_answer Sample.world "aapl")) ∅ eq_refl)
      as (body & Hbody & _).
    split; reflexivity.
  - intros H400.
    apply (proj1 (proj2 (proj2 (proj2 (get_info_answer _ "aapl"))))) in H400.
    destruct H400 as [e He]. discriminate.
Defined.

(** ** Yesterday's session *)

Lemma date_ltb_lt (a b : date) :
  date_ltb a b = true <->
  year a < year b
  \/ (year a = year b
      /\ (month a < month b \/ (month a = month b /\ day a < day b))).
Proof.
  unfold date_ltb.
  rewrite !orb_true_iff, !andb_true_iff, !orb_true_iff, !andb_true_iff.
  rewrite !Nat.ltb_lt, !Nat.eqb_eq. tauto.
Qed.

(** The day computed by [today - timedelta(days=1)] is before today. *)
Lemma date_minus_one_day_before (d yesterday : date) :
  date_minus_one_day d = Ok yesterday -> date_ltb yesterday d = true.
Proof.
  destruct d as [y m dd]. unfold date_minus_one_day. cbn [year month day].
  rewrite date_ltb_lt.
  destruct dd as [|[|dd]], m as [|[|m]], y as [|[|y]];
    intros [= <-]; cbn [year month day]; lia.
Qed.

(** X12. When the half-hour table has a row dated yesterday, the intraday
    series is yesterday's session: it reports exactly the rows dated
    yesterday, and since yesterday is before today none of today's rows. *)
Theorem format_intraday_data_yesterday
    (w : World) (ticker : string) (bars : list Bar) (yesterday : date) :
  yf_history w ticker "2d" "30m" = Ok (Frame bars) ->
  date_minus_one_day (utc_today w) = Ok yesterday ->
  Exists (fun b => bar_date b = yesterday) bars ->
  let rows := List.filter (fun b => date_eqb (bar_date b) yesterday) bars in
  format_intraday_data w ticker =
    series_dict ticker "intraday"
      (map strftime_HM (map bar_ts rows))
      (map F64.round2 (map bar_close rows))
  /\ rows <> []
  /\ date_ltb yesterday (utc_today w) = true
  /\ Forall (fun b => bar_date b <> utc_today w) rows.
Proof.
  intros Hfetch Hy Hex rows. subst rows.
  assert (Hne : bars <> []) by (intros ->; inversion Hex).
  assert (Hsel : List.filter (fun b => date_eqb (bar_date b) yesterday) bars <> []).
  { rewrite filter_nil_existsb. intros Hnone.
    apply List.Exists_exists in Hex as (b & Hb & Hdate).
    assert (Hsome : existsb (fun b => date_eqb (bar_date b) yesterday) bars = true).
    { apply existsb_exists. exists b. split; [exact Hb|]. by apply date_eqb_eq. }
    congruence. }
  pose proof (date_minus_one_day_before _ _ Hy) as Hbefore.
  split; [|split; [exact Hsel|split; [exact Hbefore|]]].
  - rewrite (format_intraday_data_frame w ticker bars yesterday Hfetch Hne Hy).
    unfold intraday_rows.
    by destruct (List.filter (fun b => date_eqb (bar_date b) yesterday) bars).
  - apply List.Forall_forall. intros b [_ Hb%date_eqb_eq]%List.filter_In Htoday.
    rewrite <- Hb, Htoday, date_ltb_irrefl in Hbefore. discriminate.
Qed.

Lemma format_intraday_data_yesterday_witness :
  (yf_history (Sample.world_of (Date 2024 6 1) (Ok (Frame [])) (Ok (Frame Sample.friday_bars)))
     "AAPL" "2d" "30m" = Ok (Frame Sample.friday_bars)
   /\ date_minus_one_day (Date 2024 6 1) = Ok (Date 2024 5 31)
   /\ Exists (fun b => bar_date b = Date 2024 5 31) Sample.friday_bars)
  /\ format_intraday_data
       (Sample.world_of (Date 2024 6 1) (Ok (Frame [])) (Ok (Frame Sample.friday_bars)))
       "AAPL" !! "labels" = Some (JStrings ["15:00"; "15:30"]).
Proof.
  assert (Hex : Exists (fun b => bar_date b = Date 2024 5 31) Sample.friday_bars)
    by (by apply List.Exists_cons_hd).
  split; [split; [reflexivity | split; [reflexivity | exact Hex]]|].
  destruct (format_intraday_data_yesterday
              (Sample.world_of (Date 2024 6 1) (Ok (Frame [])) (Ok (Frame Sample.friday_bars)))
              "AAPL" Sample.friday_bars (Date 2024 5 31) eq_refl eq_refl Hex)
    as (-> & _).
  vm_compute. reflexivity.
Defined.
